(** * Warbler: the view functions of [app.py] over a relational store

    The Flask views of [app.py] are embedded as functions from the store,
    the session and the request to an outcome: the response, the messages
    flashed, and the store and session the request leaves behind.  The
    tables follow the persisted layout of the application; what the views
    take from [models.py] and [forms.py] is either a field of the class
    [Collaborators] or a definition whose comment says where it comes from. *)

From stdpp Require Import base decidable option list sorting strings pretty gmap.
From Stdlib Require Import ZArith Lia.

Local Open Scope Z_scope.

(** ** Tables *)

Module User.
Record t := mk {
  id : Z;
  username : string;
  email : string;
  password : string;            (* the stored hash *)
  image_url : string;
  header_image_url : string;
  bio : option string;
  location : option string
}.
End User.

Module Message.
Record t := mk {
  id : Z;
  text : string;
  timestamp : Z;                (* creation time, as a number of ticks *)
  user_id : Z
}.
End Message.

Module Follows.
Record t := mk { follower_id : Z; followed_id : Z }.
#[global] Instance follows_eq_dec : EqDecision t.
Proof. solve_decision. Defined.
End Follows.

Module Likes.
Record t := mk { user_id : Z; message_id : Z }.
#[global] Instance likes_eq_dec : EqDecision t.
Proof. solve_decision. Defined.
End Likes.

Record DB := mkDB {
  users : list User.t;
  messages : list Message.t;
  follows : list Follows.t;
  likes : list Likes.t
}.

(** ** Session, forms, responses *)

Definition CURR_USER_KEY : string := "curr_user".

(** The login entry of Flask's [session], the only one the views read or
    write themselves.  Flask also keeps the flashed messages in the session
    until a page shows them; here they are reported in [flashed]. *)
Abbreviation Session := (gmap string Z).

Inductive Method := GET | POST.

Record UserAddForm := mkUserAddForm {
  add_username : string;
  add_email : string;
  add_password : string;
  add_image_url : string
}.

Record LoginForm := mkLoginForm {
  login_username : string;
  login_password : string
}.

Record MessageForm := mkMessageForm { msg_text : string }.

Record UserEditForm := mkUserEditForm {
  edit_username : string;
  edit_email : string;
  edit_image_url : string;
  edit_header_image_url : string;
  edit_bio : option string;
  edit_location : option string;
  edit_password : string
}.

(** What a view hands to [render_template]. *)
Inductive TemplateArg :=
  | ArgUserAddForm (f : UserAddForm)
  | ArgLoginForm (f : LoginForm)
  | ArgMessageForm (f : MessageForm)
  | ArgUserEditForm (f : UserEditForm)
  | ArgUser (u : User.t)
  | ArgUsers (us : list User.t)
  | ArgId (i : Z)
  | ArgIds (ids : list Z)
  | ArgMessage (m : option Message.t)
  | ArgMessages (ms : list Message.t).

(** Exceptions that leave a view uncaught; Flask answers them with a 500. *)
Inductive Exception :=
  | ValueError
  | IntegrityError
  | UnmappedInstanceError.

Inductive Response :=
  | Redirect (url : string)
  | RenderTemplate (template : string) (args : list (string * TemplateArg))
  | NotFound                      (* [get_or_404] aborted; 404.html *)
  | Raised (e : Exception).

Record Outcome := mkOutcome {
  response : Response;
  flashed : list (string * string);    (* message, category *)
  db_after : DB;
  session_after : Session
}.

(** What [app.py] imports from [models.py] and [forms.py]: the bcrypt
    wrapper, the validators of the four forms and the column defaults. *)
Class Collaborators := {
  generate_password_hash : string → string;
  check_password_hash : string → string → bool;   (* stored hash, candidate *)
  validate_UserAddForm : UserAddForm → bool;
  validate_LoginForm : LoginForm → bool;
  validate_MessageForm : MessageForm → bool;
  validate_UserEditForm : UserEditForm → bool;
  default_image_url : string;
  default_header_image_url : string
}.

(** ** Queries *)

(** [User.query.get(i)], [Message.query.get(i)]. *)
Definition User_query_get (d : DB) (i : Z) : option User.t :=
  head (filter (λ u, User.id u = i) (users d)).

Definition Message_query_get (d : DB) (i : Z) : option Message.t :=
  head (filter (λ m, Message.id m = i) (messages d)).

(** [Likes.query.filter_by(user_id=u, message_id=m).first()]. *)
Definition Likes_query_first (d : DB) (u m : Z) : option Likes.t :=
  head (filter (λ l, Likes.user_id l = u ∧ Likes.message_id l = m) (likes d)).

(** [user.following]: the users reached from [u] through the follows table. *)
Definition following (d : DB) (u : User.t) : list User.t :=
  filter (λ v, Follows.mk (User.id u) (User.id v) ∈ follows d) (users d).

(** [db.session.delete(row)] on a table whose rows carry no identifier of
    their own: the row goes, the others stay in place. *)
Fixpoint delete_row {A} `{EqDecision A} (r : A) (l : list A) : list A :=
  match l with
  | [] => []
  | x :: l' => if decide (x = r) then l' else x :: delete_row r l'
  end.

(** [.order_by(Message.timestamp.desc())], run by insertion of each row in
    front of the first row that is not newer than it.  The clause names no
    second key: the order of rows of equal timestamp is the database's to
    choose, and this run is one of the results the clause allows
    ([order_by_admits] below describes them all).  What is proved of the
    timelines rests on the result being the rows, newest first. *)
Fixpoint insert_desc (m : Message.t) (l : list Message.t) : list Message.t :=
  match l with
  | [] => [m]
  | x :: l' =>
      if decide (Message.timestamp m < Message.timestamp x)
      then x :: insert_desc m l'
      else m :: x :: l'
  end.

Definition order_by_timestamp_desc (l : list Message.t) : list Message.t :=
  foldr insert_desc [] l.

(** [.limit(100)] *)
Definition limit (n : nat) (l : list Message.t) : list Message.t := take n l.

(** ** Writes *)

Definition set_users (d : DB) (us : list User.t) : DB :=
  mkDB us (messages d) (follows d) (likes d).
Definition set_messages (d : DB) (ms : list Message.t) : DB :=
  mkDB (users d) ms (follows d) (likes d).
Definition set_follows (d : DB) (fs : list Follows.t) : DB :=
  mkDB (users d) (messages d) fs (likes d).
Definition set_likes (d : DB) (ls : list Likes.t) : DB :=
  mkDB (users d) (messages d) (follows d) ls.

(** Committing a new user row: the unique indexes on [username] and [email]
    refuse a row that repeats either. *)
Definition commit_new_user (d : DB) (u : User.t) : Exception + DB :=
  if decide (Exists (λ v, User.username v = User.username u
                          ∨ User.email v = User.email u) (users d))
  then inl IntegrityError
  else inr (set_users d (users d ++ [u])).

(** Committing changed columns of the row of [u]: the same indexes, against
    the other rows. *)
Definition commit_user_update (d : DB) (u : User.t) : Exception + DB :=
  if decide (Exists (λ v, User.id v ≠ User.id u
                          ∧ (User.username v = User.username u
                             ∨ User.email v = User.email u)) (users d))
  then inl IntegrityError
  else inr (set_users d
              ((λ v, if decide (User.id v = User.id u) then u else v) <$> users d)).

(** Modelled from the spec: the cascade of [models.py] when a message row is
    deleted; the likes of the message go with it. *)
Definition delete_message (d : DB) (m : Message.t) : DB :=
  mkDB (users d)
       (filter (λ x, Message.id x ≠ Message.id m) (messages d))
       (follows d)
       (filter (λ l, Likes.message_id l ≠ Message.id m) (likes d)).

(** Modelled from the spec: the cascade of [models.py] when a user row is
    deleted; the messages the user owns, the likes made by the user or on
    those messages, and the follow edges in both directions go with it. *)
Definition delete_user_row (d : DB) (u : User.t) : DB :=
  let owned := Message.id <$> filter (λ m, Message.user_id m = User.id u) (messages d) in
  mkDB (filter (λ v, User.id v ≠ User.id u) (users d))
       (filter (λ m, Message.user_id m ≠ User.id u) (messages d))
       (filter (λ f, Follows.follower_id f ≠ User.id u
                     ∧ Follows.followed_id f ≠ User.id u) (follows d))
       (filter (λ l, Likes.user_id l ≠ User.id u
                     ∧ Likes.message_id l ∉ owned) (likes d)).

(** ** Views *)

Definition unauthorized : string * string := ("Access unauthorized.", "danger").

(** [form.validate_on_submit()]: a submitted form that passes its validators. *)
Definition validate_on_submit (meth : Method) (valid : bool) : bool :=
  match meth with
  | POST => valid
  | GET => false
  end.

(** [x or default] on strings. *)
Definition or_default (x default : string) : string :=
  if decide (x = "") then default else x.

(** The routes of [app.py] that are embedded below, with what the request
    brings: the path parameter, the method and the form. *)
Inductive Request :=
  | ReqSignup (new_id : Z) (meth : Method) (form : UserAddForm)
  | ReqLogin (meth : Method) (form : LoginForm)
  | ReqLogout
  | ReqUsersShow (user_id : Z)
  | ReqAddFollow (follow_id : Z)
  | ReqStopFollowing (follow_id : Z)
  | ReqProfile (meth : Method) (form : UserEditForm)
  | ReqDeleteUser
  | ReqMessagesAdd (now new_id : Z) (meth : Method) (form : MessageForm)
  | ReqMessagesShow (message_id : Z)
  | ReqMessagesDestroy (message_id : Z)
  | ReqHomepage
  | ReqAddLike (message_id : Z)
  | ReqRemoveLike (message_id : Z).

Section Views.
Context `{Collaborators}.

(** [add_user_to_g]: the value of [g.user] for the request. *)
Definition add_user_to_g (d : DB) (s : Session) : option User.t :=
  match s !! CURR_USER_KEY with
  | Some uid => User_query_get d uid
  | None => None
  end.

Definition do_login (user : User.t) (s : Session) : Session :=
  <[CURR_USER_KEY := User.id user]> s.

Definition do_logout (s : Session) : Session :=
  delete CURR_USER_KEY s.

(** Modelled from the spec: [User.signup] of [models.py]; it refuses an
    empty required field, hashes the password and adds the row to the
    session.  [new_id] is the identifier the store assigns to the row. *)
Definition User_signup (new_id : Z) (username email password image_url : string)
  : Exception + User.t :=
  if decide (username = "" ∨ email = "" ∨ password = "")
  then inl ValueError
  else inr (User.mk new_id username email (generate_password_hash password)
                    image_url default_header_image_url None None).

(** Modelled from the spec: [User.authenticate] of [models.py]; the row
    with this username, when its hash verifies the password. *)
Definition User_authenticate (d : DB) (username password : string) : option User.t :=
  match head (filter (λ u, User.username u = username) (users d)) with
  | Some u => if check_password_hash (User.password u) password then Some u else None
  | None => None
  end.

Definition signup (new_id : Z) (d : DB) (s : Session)
                  (meth : Method) (form : UserAddForm) : Outcome :=
  let page := RenderTemplate "users/signup.html" [("form", ArgUserAddForm form)] in
  if validate_on_submit meth (validate_UserAddForm form) then
    match User_signup new_id (add_username form) (add_email form) (add_password form)
                      (or_default (add_image_url form) default_image_url) with
    | inl e => mkOutcome (Raised e) [] d s
    | inr user =>
        match commit_new_user d user with
        | inl _ => mkOutcome page [("Username already taken", "danger")] d s
        | inr d' =>
            mkOutcome (Redirect "/") [("Welcome to Warbler", "success")]
                      d' (do_login user s)
        end
    end
  else mkOutcome page [] d s.

Definition login (d : DB) (s : Session) (meth : Method) (form : LoginForm) : Outcome :=
  let page := RenderTemplate "users/login.html" [("form", ArgLoginForm form)] in
  if validate_on_submit meth (validate_LoginForm form) then
    match User_authenticate d (login_username form) (login_password form) with
    | Some user =>
        mkOutcome (Redirect "/")
                  [("Hello, " +:+ User.username user +:+ "!", "success")]
                  d (do_login user s)
    | None => mkOutcome page [("Invalid credentials.", "danger")] d s
    end
  else mkOutcome page [] d s.

Definition logout (d : DB) (s : Session) : Outcome :=
  mkOutcome (Redirect "/login")
            [("You have been successfully logged out.", "success")]
            d (do_logout s).

Definition users_show (d : DB) (s : Session) (user_id : Z) : Outcome :=
  match User_query_get d user_id with
  | None => mkOutcome NotFound [] d s
  | Some user =>
      let messages :=
        limit 100 (order_by_timestamp_desc
                     (filter (λ m, Message.user_id m = user_id) (messages d))) in
      mkOutcome (RenderTemplate "users/show.html"
                   [("user", ArgUser user); ("messages", ArgMessages messages)])
                [] d s
  end.

Definition add_follow (d : DB) (s : Session) (follow_id : Z) : Outcome :=
  match add_user_to_g d s with
  | None => mkOutcome (Redirect "/") [unauthorized] d s
  | Some user =>
      match User_query_get d follow_id with
      | None => mkOutcome NotFound [] d s
      | Some followed_user =>
          let edge := Follows.mk (User.id user) (User.id followed_user) in
          (* the flush writes a follows row only for a user that was not in
             the collection when it was loaded *)
          let d' := if decide (edge ∈ follows d) then d
                    else set_follows d (follows d ++ [edge]) in
          mkOutcome (Redirect ("/users/" +:+ pretty (User.id user) +:+ "/following"))
                    [] d' s
      end
  end.

(** [g.user.following.remove(followed_user)]: [list.remove] raises
    [ValueError] for a value the list does not hold, [None] included. *)
Definition following_remove (d : DB) (user : User.t) (followed_user : option User.t)
  : Exception + DB :=
  match followed_user with
  | None => inl ValueError
  | Some v =>
      let edge := Follows.mk (User.id user) (User.id v) in
      if decide (edge ∈ follows d)
      then inr (set_follows d (delete_row edge (follows d)))
      else inl ValueError
  end.

Definition stop_following (d : DB) (s : Session) (follow_id : Z) : Outcome :=
  match add_user_to_g d s with
  | None => mkOutcome (Redirect "/") [unauthorized] d s
  | Some user =>
      let followed_user := User_query_get d follow_id in
      match following_remove d user followed_user with
      | inl e => mkOutcome (Raised e) [] d s
      | inr d' =>
          mkOutcome (Redirect ("/users/" +:+ pretty (User.id user) +:+ "/following"))
                    [] d' s
      end
  end.

Definition profile (d : DB) (s : Session) (meth : Method) (form : UserEditForm) : Outcome :=
  match add_user_to_g d s with
  | None => mkOutcome (Redirect "/login") [unauthorized] d s
  | Some user =>
      let edit_page f :=
        RenderTemplate "users/edit.html"
          [("form", ArgUserEditForm f); ("user_id", ArgId (User.id user))] in
      if validate_on_submit meth (validate_UserEditForm form) then
        let form :=
          mkUserEditForm (edit_username form) (edit_email form) (edit_image_url form)
            (or_default (edit_header_image_url form) "/static/images/warbler-hero.jpg")
            (edit_bio form) (edit_location form) (edit_password form) in
        if check_password_hash (User.password user) (edit_password form) then
          let user' :=
            User.mk (User.id user) (edit_username form) (edit_email form)
                    (User.password user) (edit_image_url form)
                    (edit_header_image_url form) (edit_bio form) (edit_location form) in
          match commit_user_update d user' with
          | inl e => mkOutcome (Raised e) [] d s
          | inr d' =>
              mkOutcome (Redirect ("/users/" +:+ pretty (User.id user)))
                        [("Profile updated successfully.", "success")] d' s
          end
        else
          mkOutcome (edit_page form)
                    [("Invalid current password. Please try again.", "danger")] d s
      else mkOutcome (edit_page form) [] d s
  end.

Definition delete_user (d : DB) (s : Session) : Outcome :=
  match add_user_to_g d s with
  | None => mkOutcome (Redirect "/") [unauthorized] d s
  | Some user =>
      mkOutcome (Redirect "/signup") [] (delete_user_row d user) (do_logout s)
  end.

(** [now] is the clock reading the timestamp default takes, [new_id] the
    identifier the store assigns to the row. *)
Definition messages_add (now new_id : Z) (d : DB) (s : Session)
                        (meth : Method) (form : MessageForm) : Outcome :=
  match add_user_to_g d s with
  | None => mkOutcome (Redirect "/") [unauthorized] d s
  | Some user =>
      if validate_on_submit meth (validate_MessageForm form) then
        let msg := Message.mk new_id (msg_text form) now (User.id user) in
        mkOutcome (Redirect ("/users/" +:+ pretty (User.id user))) []
                  (set_messages d (messages d ++ [msg])) s
      else
        mkOutcome (RenderTemplate "messages/new.html" [("form", ArgMessageForm form)])
                  [] d s
  end.

Definition messages_show (d : DB) (s : Session) (message_id : Z) : Outcome :=
  let msg := Message_query_get d message_id in
  mkOutcome (RenderTemplate "messages/show.html" [("message", ArgMessage msg)]) [] d s.

Definition messages_destroy (d : DB) (s : Session) (message_id : Z) : Outcome :=
  match add_user_to_g d s with
  | None => mkOutcome (Redirect "/") [unauthorized] d s
  | Some user =>
      match Message_query_get d message_id with
      | None =>
          (* [db.session.delete(None)] *)
          mkOutcome (Raised UnmappedInstanceError) [] d s
      | Some msg =>
          mkOutcome (Redirect ("/users/" +:+ pretty (User.id user))) []
                    (delete_message d msg) s
      end
  end.

(** The loop that prints the type of each liked identifier writes to the
    standard output only and is left out. *)
Definition homepage (d : DB) (s : Session) : Outcome :=
  match add_user_to_g d s with
  | Some user =>
      let followed_users_ids := User.id <$> following d user in
      let messages :=
        limit 100 (order_by_timestamp_desc
                     (filter (λ m, Message.user_id m ∈ followed_users_ids)
                             (messages d))) in
      let liked_message_ids :=
        Likes.message_id <$> filter (λ l, Likes.user_id l = User.id user) (likes d) in
      mkOutcome (RenderTemplate "home.html"
                   [("messages", ArgMessages messages);
                    ("liked_message", ArgIds liked_message_ids)])
                [] d s
  | None => mkOutcome (RenderTemplate "home-anon.html" []) [] d s
  end.

Definition add_like (d : DB) (s : Session) (message_id : Z) : Outcome :=
  match add_user_to_g d s with
  | None => mkOutcome (Redirect "/login") [unauthorized] d s
  | Some user =>
      match Message_query_get d message_id with
      | None => mkOutcome NotFound [] d s
      | Some message =>
          match Likes_query_first d (User.id user) message_id with
          | Some like =>
              mkOutcome (Redirect "/") [("You've unliked the message.", "warning")]
                        (set_likes d (delete_row like (likes d))) s
          | None =>
              let new_like := Likes.mk (User.id user) message_id in
              mkOutcome (Redirect "/") [("You've liked the message.", "success")]
                        (set_likes d (likes d ++ [new_like])) s
          end
      end
  end.

Definition remove_like (d : DB) (s : Session) (message_id : Z) : Outcome :=
  match add_user_to_g d s with
  | None => mkOutcome (Redirect "/login") [unauthorized] d s
  | Some user =>
      match Message_query_get d message_id with
      | None => mkOutcome NotFound [] d s
      | Some message =>
          let likes_page := Redirect ("/users/" +:+ pretty (User.id user) +:+ "/likes") in
          match Likes_query_first d (User.id user) message_id with
          | None =>
              mkOutcome likes_page [("You haven't liked this warble yet.", "warning")] d s
          | Some like =>
              mkOutcome likes_page [("Warble unliked.", "success")]
                        (set_likes d (delete_row like (likes d))) s
          end
      end
  end.

(** *** Routing *)

Definition dispatch (r : Request) (d : DB) (s : Session) : Outcome :=
  match r with
  | ReqSignup new_id meth form => signup new_id d s meth form
  | ReqLogin meth form => login d s meth form
  | ReqLogout => logout d s
  | ReqUsersShow user_id => users_show d s user_id
  | ReqAddFollow follow_id => add_follow d s follow_id
  | ReqStopFollowing follow_id => stop_following d s follow_id
  | ReqProfile meth form => profile d s meth form
  | ReqDeleteUser => delete_user d s
  | ReqMessagesAdd now new_id meth form => messages_add now new_id d s meth form
  | ReqMessagesShow message_id => messages_show d s message_id
  | ReqMessagesDestroy message_id => messages_destroy d s message_id
  | ReqHomepage => homepage d s
  | ReqAddLike message_id => add_like d s message_id
  | ReqRemoveLike message_id => remove_like d s message_id
  end.

(** The store after a run of requests, each with the session cookie its
    client sends. *)
Fixpoint serve (rs : list (Session * Request)) (d : DB) : DB :=
  match rs with
  | [] => d
  | (s, r) :: rs' => serve rs' (db_after (dispatch r d s))
  end.

(** *** What the login view answers without a match *)

(** A row has this username and its hash does not verify the password. *)
Definition wrong_password (d : DB) (username password : string) : Prop :=
  ∃ u, head (filter (λ u, User.username u = username) (users d)) = Some u
       ∧ check_password_hash (User.password u) password = false.

(** What [login] answers when [User.authenticate] finds no match: the
    form again, with the one flash when the form was a valid submission. *)
Definition login_refused (d : DB) (s : Session) (meth : Method) (form : LoginForm) : Outcome :=
  mkOutcome (RenderTemplate "users/login.html" [("form", ArgLoginForm form)])
            (if validate_on_submit meth (validate_LoginForm form)
             then [("Invalid credentials.", "danger")] else [])
            d s.

End Views.

(** ** Observations on outcomes and stores *)

(** The messages a response shows: the [messages] argument of the template
    it renders, none when the view passes none. *)
Definition shown_messages (r : Response) : list Message.t :=
  match r with
  | RenderTemplate _ args =>
      match (filter (λ a, a.1 = "messages") args) with
      | (_, ArgMessages ms) :: _ => ms
      | _ => []
      end
  | _ => []
  end.

Inductive LikeState := Liked | Unliked.

(** What [add_like] tells the user it did. *)
Definition reported_like_state (o : Outcome) : option LikeState :=
  if decide (flashed o = [("You've liked the message.", "success")]) then Some Liked
  else if decide (flashed o = [("You've unliked the message.", "warning")]) then Some Unliked
  else None.

(** The tables [add_like] and [remove_like] never write. *)
Definition same_but_likes (d d' : DB) : Prop :=
  users d' = users d ∧ messages d' = messages d ∧ follows d' = follows d.

(** The answer of a view that turns the caller away: the unauthorized flash,
    a redirect, and the store and session as they were. *)
Definition fails_unauthorized (d : DB) (s : Session) (o : Outcome) : Prop :=
  (∃ url, response o = Redirect url)
  ∧ flashed o = [unauthorized]
  ∧ db_after o = d
  ∧ session_after o = s.

(** [a] may come before [b] in a listing that is newest first. *)
Definition newer_or_same (a b : Message.t) : Prop :=
  Message.timestamp b ≤ Message.timestamp a.

(** Newest first, and among messages of one timestamp the larger identifier
    first. *)
Definition newer_then_larger_id (a b : Message.t) : Prop :=
  Message.timestamp b < Message.timestamp a
  ∨ (Message.timestamp b = Message.timestamp a ∧ Message.id b < Message.id a).

(** What [ORDER BY timestamp DESC LIMIT 100] asks of a result, whatever the
    store does with rows of equal timestamp. *)
Definition order_by_admits (rows result : list Message.t) : Prop :=
  ∃ sorted,
    sorted ≡ₚ rows ∧ StronglySorted newer_or_same sorted ∧ result = take 100 sorted.

(** The results the query of [homepage] allows for a viewer, and the query
    of [users_show] for a user. *)
Definition home_timeline_admits (d : DB) (viewer : User.t) (result : list Message.t) : Prop :=
  order_by_admits
    (filter (λ m, Message.user_id m ∈ User.id <$> following d viewer) (messages d)) result.

Definition user_timeline_admits (d : DB) (user_id : Z) (result : list Message.t) : Prop :=
  order_by_admits (filter (λ m, Message.user_id m = user_id) (messages d)) result.

(** No row has this username. *)
Definition unknown_username (d : DB) (username : string) : Prop :=
  Forall (λ u, User.username u ≠ username) (users d).

Inductive Field := FieldUsername | FieldEmail.

(** A row of the users table already has the value the form gives for [f]. *)
Definition collides (d : DB) (form : UserAddForm) (f : Field) : Prop :=
  match f with
  | FieldUsername => Exists (λ u, User.username u = add_username form) (users d)
  | FieldEmail => Exists (λ u, User.email u = add_email form) (users d)
  end.

(** The field the flash of [signup] names as taken. *)
Definition reported_field (o : Outcome) : option Field :=
  if decide (flashed o = [("Username already taken", "danger")])
  then Some FieldUsername
  else None.

Definition no_self_follow (d : DB) : Prop :=
  Forall (λ e, Follows.follower_id e ≠ Follows.followed_id e) (follows d).

Section RunPredicates.
Context `{Collaborators}.

(** The request is a logged-in user asking to follow their own identifier. *)
Definition follows_self (d : DB) (s : Session) (r : Request) : Prop :=
  ∃ user, add_user_to_g d s = Some user ∧ r = ReqAddFollow (User.id user).

Fixpoint never_follows_self (rs : list (Session * Request)) (d : DB) : Prop :=
  match rs with
  | [] => True
  | (s, r) :: rs' =>
      ¬ follows_self d s r ∧ never_follows_self rs' (db_after (dispatch r d s))
  end.

End RunPredicates.

(** ** Read views behind the gate *)

Definition show_following (d : DB) (s : Session) (user_id : Z) : Outcome :=
  match add_user_to_g d s with
  | None =>
      mkOutcome (Redirect "/") [("Access unauthorized. Please log in.", "danger")] d s
  | Some _ =>
      match User_query_get d user_id with
      | None => mkOutcome NotFound [] d s
      | Some user =>
          mkOutcome (RenderTemplate "users/following.html" [("user", ArgUser user)]) [] d s
      end
  end.

Definition users_followers (d : DB) (s : Session) (user_id : Z) : Outcome :=
  match add_user_to_g d s with
  | None =>
      mkOutcome (Redirect "/") [("Access unauthorized. Please log in.", "danger")] d s
  | Some _ =>
      match User_query_get d user_id with
      | None => mkOutcome NotFound [] d s
      | Some user =>
          mkOutcome (RenderTemplate "users/followers.html" [("user", ArgUser user)]) [] d s
      end
  end.

(** Modelled from the spec: the [likes] relationship of [models.py], the
    messages the user has a like row for. *)
Definition user_likes (d : DB) (u : User.t) : list Message.t :=
  filter (λ m, Likes.mk (User.id u) (Message.id m) ∈ likes d) (messages d).

Definition show_likes (d : DB) (s : Session) (user_id : Z) : Outcome :=
  match add_user_to_g d s with
  | None => mkOutcome (Redirect "/login") [unauthorized] d s
  | Some _ =>
      match User_query_get d user_id with
      | None => mkOutcome NotFound [] d s
      | Some user =>
          let liked_messages := user_likes d user in
          mkOutcome (RenderTemplate "users/likes.html"
                       [("user", ArgUser user); ("messages", ArgMessages liked_messages)])
                    [] d s
      end
  end.

(** ** Response headers *)

(** The headers of a response as werkzeug keeps them: a list of names and
    values in order, the names compared without regard to case. *)
Abbreviation Headers := (list (string * string)).

(** [str.lower] on the ASCII letters a header name is made of. *)
Definition lower_ascii (c : Ascii.ascii) : Ascii.ascii :=
  let n := Ascii.N_of_ascii c in
  if decide (65 ≤ n ∧ n ≤ 90)%N then Ascii.ascii_of_N (n + 32) else c.

Fixpoint lower (s : string) : string :=
  match s with
  | EmptyString => EmptyString
  | String c s' => String (lower_ascii c) (lower s')
  end.

(** [headers[key] = value]: the first header of that name is replaced, the
    later ones of that name are dropped; a new name goes to the end. *)
Fixpoint headers_set (key value : string) (h : Headers) : Headers :=
  match h with
  | [] => [(key, value)]
  | (k, v) :: h' =>
      if decide (lower k = lower key)
      then (key, value) :: filter (λ kv, lower kv.1 ≠ lower key) h'
      else (k, v) :: headers_set key value h'
  end.

(** [headers.get(key)]: the value of the first header of that name. *)
Definition headers_get (key : string) (h : Headers) : option string :=
  snd <$> head (filter (λ kv, lower kv.1 = lower key) h).

(** [add_header], on the headers of the response it is given. *)
Definition add_header (h : Headers) : Headers :=
  let h := headers_set "Cache-Control" "no-cache, no-store, must-revalidate" h in
  let h := headers_set "Pragma" "no-cache" h in
  let h := headers_set "Expires" "0" h in
  headers_set "Cache-Control" "public, max-age=0" h.

(** ** More observations *)

(** The identifiers of liked messages a response hands to its template. *)
Definition shown_liked_ids (r : Response) : list Z :=
  match r with
  | RenderTemplate _ args =>
      match (filter (λ a, a.1 = "liked_message") args) with
      | (_, ArgIds ids) :: _ => ids
      | _ => []
      end
  | _ => []
  end.

(** [shown] is the 100 most recent of [rows]: the rows left out are no newer
    than any row shown, and none is left out when there are at most 100. *)
Definition most_recent_of (rows shown : list Message.t) : Prop :=
  ∃ hidden,
    shown ++ hidden ≡ₚ rows
    ∧ (∀ a b, a ∈ shown → b ∈ hidden → newer_or_same a b)
    ∧ length shown = Nat.min 100 (length rows)
    ∧ ((length rows ≤ 100)%nat → hidden = []).

(** The store holds no two users with one identifier. *)
Definition unique_user_ids (d : DB) : Prop := NoDup (User.id <$> users d).

(** ** Sample data *)

(** A concrete set of collaborators for running the views: hashing that
    tags the password, validators that ask for non-empty required fields. *)
Definition demo : Collaborators := {|
  generate_password_hash p := "hash:" +:+ p;
  check_password_hash h p := bool_decide (h = "hash:" +:+ p);
  validate_UserAddForm f :=
    bool_decide (add_username f ≠ "" ∧ add_email f ≠ "" ∧ add_password f ≠ "");
  validate_LoginForm f := bool_decide (login_username f ≠ "" ∧ login_password f ≠ "");
  validate_MessageForm f := bool_decide (msg_text f ≠ "");
  validate_UserEditForm f := bool_decide (edit_username f ≠ "" ∧ edit_email f ≠ "");
  default_image_url := "/static/images/default-pic.png";
  default_header_image_url := "/static/images/warbler-hero.jpg"
|}.

Definition alice : User.t :=
  User.mk 1 "alice" "alice@test.com" "hash:password" "/static/images/default-pic.png"
          "/static/images/warbler-hero.jpg" None None.
Definition bob : User.t :=
  User.mk 2 "bob" "bob@test.com" "hash:hunter22" "/static/images/default-pic.png"
          "/static/images/warbler-hero.jpg" None None.

Definition as_user (i : Z) : Session := {[ CURR_USER_KEY := i ]}.
Definition anonymous : Session := ∅.

(** Two messages written in the same tick by the user that [bob] follows. *)
Definition db_tie : DB :=
  mkDB [alice; bob]
       [Message.mk 1 "Hello" 10 1; Message.mk 2 "World" 10 1]
       [Follows.mk 2 1]
       [].

(** ** Rows and queries *)

Lemma delete_row_notin {A} `{EqDecision A} (r : A) (l : list A) :
  r ∉ l → delete_row r l = l.
Proof.
  induction l as [|x l IH]; intros Hr; simpl; [done|].
  apply not_elem_of_cons in Hr as [Hx Hl].
  destruct (decide (x = r)); [congruence|]. by rewrite IH.
Qed.

Lemma delete_row_split {A} `{EqDecision A} (r : A) (l : list A) :
  r ∈ l →
  ∃ l1 l2, l = l1 ++ (r :: l2) ∧ (r ∉ l1) ∧ delete_row r l = l1 ++ l2.
Proof.
  induction l as [|x l IH]; intros Hr; [by apply elem_of_nil in Hr|].
  simpl. destruct (decide (x = r)) as [->|Hne].
  - exists [], l. split_and!; [done|apply not_elem_of_nil|done].
  - apply elem_of_cons in Hr as [Heq|Hl]; [congruence|].
    destruct (IH Hl) as (l1 & l2 & -> & Hn & ->).
    exists (x :: l1), l2. split_and!; [done| |done].
    apply not_elem_of_cons. split; [congruence|done].
Qed.

Lemma delete_row_app_last {A} `{EqDecision A} (r : A) (l : list A) :
  r ∉ l → delete_row r (l ++ [r]) = l.
Proof.
  induction l as [|x l IH]; intros Hr; simpl.
  - by rewrite decide_True.
  - apply not_elem_of_cons in Hr as [Hx Hl].
    destruct (decide (x = r)); [congruence|]. by rewrite IH.
Qed.

Lemma delete_row_subseteq {A} `{EqDecision A} (r : A) (l : list A) :
  delete_row r l ⊆ l.
Proof.
  induction l as [|x l IH]; simpl; [done|].
  intros y Hy. destruct (decide (x = r)).
  - by apply list_elem_of_further.
  - apply elem_of_cons in Hy as [->|Hy]; [apply list_elem_of_here|].
    by apply list_elem_of_further, IH.
Qed.

Lemma head_filter_Some {A} (P : A → Prop) `{∀ x, Decision (P x)} (l : list A) (x : A) :
  head (filter P l) = Some x → x ∈ l ∧ P x.
Proof.
  intros Hh. apply head_Some_elem_of in Hh.
  by apply list_elem_of_filter in Hh as [? ?].
Qed.

Lemma head_filter_None {A} (P : A → Prop) `{∀ x, Decision (P x)} (l : list A) :
  head (filter P l) = None ↔ Forall (λ x, ¬ P x) l.
Proof.
  rewrite head_None. split.
  - intros Hn. apply Forall_forall. intros x Hx HP.
    assert (x ∈ filter P l) as Hin by (apply list_elem_of_filter; done).
    rewrite Hn in Hin. by apply elem_of_nil in Hin.
  - intros Hall. induction Hall as [|x l Hx Hl IH]; [done|].
    rewrite filter_cons. by destruct (decide (P x)).
Qed.

Lemma Likes_query_first_Some (d : DB) (u m : Z) (like : Likes.t) :
  Likes_query_first d u m = Some like → like = Likes.mk u m ∧ like ∈ likes d.
Proof.
  intros Hq. apply head_filter_Some in Hq as [Hin [Hu Hm]].
  split; [|done]. destruct like; simpl in *; congruence.
Qed.

Lemma Likes_query_first_None (d : DB) (u m : Z) :
  Likes_query_first d u m = None ↔ Likes.mk u m ∉ likes d.
Proof.
  unfold Likes_query_first. rewrite head_filter_None, Forall_forall. split.
  - intros Hall Hin. apply (Hall _ Hin). done.
  - intros Hn [u' m'] Hin [Hu Hm]; simpl in *. subst. done.
Qed.

Lemma Likes_query_first_elem (d : DB) (u m : Z) :
  Likes.mk u m ∈ likes d → Likes_query_first d u m = Some (Likes.mk u m).
Proof.
  intros Hin. destruct (Likes_query_first d u m) as [like|] eqn:Hq.
  - apply Likes_query_first_Some in Hq as [-> _]. done.
  - apply Likes_query_first_None in Hq. done.
Qed.

(** [g.user] carries the identifier the session holds. *)
Lemma add_user_to_g_Some (d : DB) (s : Session) (user : User.t) :
  add_user_to_g d s = Some user →
  s !! CURR_USER_KEY = Some (User.id user) ∧ User_query_get d (User.id user) = Some user.
Proof.
  unfold add_user_to_g. destruct (s !! CURR_USER_KEY) as [uid|]; [|done].
  intros Hq. pose proof Hq as Hq'.
  apply head_filter_Some in Hq' as [_ Hid]. by subst uid.
Qed.

Lemma add_user_to_g_anonymous (d : DB) (s : Session) :
  s !! CURR_USER_KEY = None → add_user_to_g d s = None.
Proof. unfold add_user_to_g. by intros ->. Qed.

(** [g.user] depends on the users table only. *)
Lemma add_user_to_g_users (d d' : DB) (s : Session) :
  users d' = users d → add_user_to_g d' s = add_user_to_g d s.
Proof. unfold add_user_to_g, User_query_get. by intros ->. Qed.

(** ** Likes *)

Lemma add_like_liked (d : DB) (s : Session) (user : User.t) (message : Message.t) (mid : Z) :
  add_user_to_g d s = Some user →
  Message_query_get d mid = Some message →
  Likes.mk (User.id user) mid ∈ likes d →
  add_like d s mid =
    mkOutcome (Redirect "/") [("You've unliked the message.", "warning")]
              (set_likes d (delete_row (Likes.mk (User.id user) mid) (likes d))) s.
Proof.
  intros Hg Hm Hin. unfold add_like. rewrite Hg, Hm.
  by rewrite (Likes_query_first_elem _ _ _ Hin).
Qed.

Lemma add_like_not_liked (d : DB) (s : Session) (user : User.t) (message : Message.t) (mid : Z) :
  add_user_to_g d s = Some user →
  Message_query_get d mid = Some message →
  Likes.mk (User.id user) mid ∉ likes d →
  add_like d s mid =
    mkOutcome (Redirect "/") [("You've liked the message.", "success")]
              (set_likes d (likes d ++ [Likes.mk (User.id user) mid])) s.
Proof.
  intros Hg Hm Hin. unfold add_like. rewrite Hg, Hm.
  apply Likes_query_first_None in Hin. by rewrite Hin.
Qed.

Lemma add_like_session (d : DB) (s : Session) (mid : Z) :
  session_after (add_like d s mid) = s.
Proof.
  unfold add_like. destruct (add_user_to_g d s); [|done].
  destruct (Message_query_get d mid); [|done].
  by destruct (Likes_query_first d _ mid).
Qed.

Lemma add_like_same_but_likes (d : DB) (s : Session) (mid : Z) :
  same_but_likes d (db_after (add_like d s mid)).
Proof.
  unfold add_like. destruct (add_user_to_g d s); [|done].
  destruct (Message_query_get d mid); [|done].
  by destruct (Likes_query_first d _ mid).
Qed.

(** Two toggles in a row put back every like row, the toggled one possibly
    at another place of the table. *)
Lemma add_like_twice (d : DB) (s : Session) (mid : Z) :
  NoDup (likes d) →
  likes (db_after (add_like (db_after (add_like d s mid)) s mid)) ≡ₚ likes d.
Proof.
  intros Hnd.
  destruct (add_user_to_g d s) as [user|] eqn:Hg.
  2: { unfold add_like at 2. rewrite Hg. simpl. unfold add_like. by rewrite Hg. }
  destruct (Message_query_get d mid) as [message|] eqn:Hm.
  2: { unfold add_like at 2. rewrite Hg, Hm. simpl. unfold add_like. by rewrite Hg, Hm. }
  set (row := Likes.mk (User.id user) mid).
  destruct (decide (row ∈ likes d)) as [Hin|Hout].
  - rewrite (add_like_liked d s user message mid Hg Hm Hin). simpl.
    destruct (delete_row_split row (likes d) Hin) as (l1 & l2 & Hl & Hn1 & Hdel).
    fold row. rewrite Hdel.
    assert (row ∉ l1 ++ l2) as Hgone.
    { rewrite Hl in Hnd. apply NoDup_app in Hnd as (_ & Hdisj & Hnd2).
      apply NoDup_cons in Hnd2 as [Hn2 _].
      rewrite elem_of_app. intros [?|?]; done. }
    erewrite (add_like_not_liked _ s user message mid); simpl; [| done | done | done].
    rewrite Hl. fold row. rewrite <- (assoc_L (++)).
    apply Permutation_app_head. symmetry. apply Permutation_cons_append.
  - rewrite (add_like_not_liked d s user message mid Hg Hm Hout). simpl.
    erewrite (add_like_liked _ s user message mid); simpl; [| done | done |].
    + fold row. by rewrite delete_row_app_last.
    + fold row. apply elem_of_app. right. apply list_elem_of_here.
Qed.

(** C4: [add_like] is the toggle.  For a logged-in user and an existing
    message it deletes the like row of the pair when there is one, leaving
    the other rows in place, and reports that the message was unliked;
    otherwise it appends the row of the pair and reports that the message
    was liked.  Whoever asks and whatever the message, two toggles in
    succession over a table without repeated rows give back the same like
    rows and touch no other table. *)
Theorem add_like_toggle_involution (d : DB) (s : Session) (mid : Z) :
  NoDup (likes d) →
  (∀ user message,
     add_user_to_g d s = Some user →
     Message_query_get d mid = Some message →
     let row := Likes.mk (User.id user) mid in
     let o := add_like d s mid in
     (row ∈ likes d →
        reported_like_state o = Some Unliked
        ∧ (row ∉ likes (db_after o))
        ∧ ∃ l1 l2, likes d = l1 ++ (row :: l2) ∧ likes (db_after o) = l1 ++ l2)
     ∧ (row ∉ likes d →
        reported_like_state o = Some Liked
        ∧ likes (db_after o) = likes d ++ [row]))
  ∧ (let o1 := add_like d s mid in
     let o2 := add_like (db_after o1) (session_after o1) mid in
     likes (db_after o2) ≡ₚ likes d
     ∧ NoDup (likes (db_after o2))
     ∧ same_but_likes d (db_after o2)
     ∧ session_after o2 = s).
Proof.
  intros Hnd. split.
  - intros user message Hg Hm row o. split.
    + intros Hin. subst o. rewrite (add_like_liked d s user message mid Hg Hm Hin).
      fold row. simpl.
      destruct (delete_row_split row (likes d) Hin) as (l1 & l2 & Hl & Hn1 & Hdel).
      split_and!; [done| |by exists l1, l2].
      rewrite Hdel. rewrite Hl in Hnd.
      apply NoDup_app in Hnd as (_ & Hdisj & Hnd2).
      apply NoDup_cons in Hnd2 as [Hn2 _].
      rewrite elem_of_app. intros [?|?]; done.
    + intros Hout. subst o. by rewrite (add_like_not_liked d s user message mid Hg Hm Hout).
  - simpl. rewrite !add_like_session.
    pose proof (add_like_twice d s mid Hnd) as Hperm.
    split_and!; [done| by rewrite Hperm | | done].
    destruct (add_like_same_but_likes d s mid) as (Hu & Hms & Hf).
    destruct (add_like_same_but_likes (db_after (add_like d s mid)) s mid) as (Hu' & Hms' & Hf').
    unfold same_but_likes. by rewrite Hu', Hms', Hf'.
Qed.

Lemma add_like_toggle_involution_witness :
  let d := mkDB [alice; bob] [Message.mk 1 "Hello" 10 1] [Follows.mk 2 1] [] in
  let o1 := add_like d (as_user 2) 1 in
  let o2 := add_like (db_after o1) (session_after o1) 1 in
  reported_like_state o1 = Some Liked
  ∧ reported_like_state o2 = Some Unliked
  ∧ likes (db_after o2) ≡ₚ likes d.
Proof.
  intros d o1 o2.
  destruct (add_like_toggle_involution d (as_user 2) 1 (NoDup_nil_2)) as [Hstep Htwice].
  destruct (Hstep bob (Message.mk 1 "Hello" 10 1) eq_refl eq_refl) as [_ Hfresh].
  destruct (Hfresh (not_elem_of_nil _)) as [Hliked _].
  destruct Htwice as (Hback & _).
  split_and!; [exact Hliked|reflexivity|exact Hback].
Defined.

(** C10: [remove_like], asked by a logged-in user about an existing message.
    When the user has no like row for the message the view answers with the
    redirect to the likes page and one warning, and the store and the session
    are the ones it found.  When the user has one, the view removes that row
    and keeps every other row of the table, in place; the other tables and
    the session are untouched. *)
Theorem remove_like_only_that_row
    (d : DB) (s : Session) (user : User.t) (message : Message.t) (mid : Z) :
  add_user_to_g d s = Some user →
  Message_query_get d mid = Some message →
  let row := Likes.mk (User.id user) mid in
  let o := remove_like d s mid in
  let likes_page := Redirect ("/users/" +:+ pretty (User.id user) +:+ "/likes") in
  (row ∉ likes d →
     o = mkOutcome likes_page [("You haven't liked this warble yet.", "warning")] d s)
  ∧ (row ∈ likes d →
     response o = likes_page
     ∧ flashed o = [("Warble unliked.", "success")]
     ∧ session_after o = s
     ∧ same_but_likes d (db_after o)
     ∧ length (likes d) = S (length (likes (db_after o)))
     ∧ ∃ l1 l2, likes d = l1 ++ (row :: l2) ∧ likes (db_after o) = l1 ++ l2).
Proof.
  intros Hg Hm row o likes_page. subst o. unfold remove_like. rewrite Hg, Hm.
  fold likes_page. split.
  - intros Hout. apply Likes_query_first_None in Hout. by rewrite Hout.
  - intros Hin. rewrite (Likes_query_first_elem _ _ _ Hin). fold row. simpl.
    destruct (delete_row_split row (likes d) Hin) as (l1 & l2 & Hl & _ & Hdel).
    split_and!; [done|done|done|done| |by exists l1, l2].
    rewrite Hdel, Hl, !length_app. simpl. lia.
Qed.

Lemma remove_like_only_that_row_witness :
  let o := remove_like (mkDB [alice; bob] [Message.mk 1 "Hello" 10 1] [] [Likes.mk 2 1])
                       (as_user 2) 1 in
  flashed o = [("Warble unliked.", "success")] ∧ likes (db_after o) = [].
Proof.
  pose proof (remove_like_only_that_row
                (mkDB [alice; bob] [Message.mk 1 "Hello" 10 1] [] [Likes.mk 2 1])
                (as_user 2) bob (Message.mk 1 "Hello" 10 1) 1 eq_refl eq_refl) as [_ Hliked].
  destruct Hliked as (_ & Hf & _); [apply list_elem_of_here|].
  split; [exact Hf|reflexivity].
Defined.

(** ** The gate on [g.user] *)

Section Gate.
Context `{Collaborators}.

(** C3: when the request carries no logged-in user ([g.user] is [None], as
    it is for a session without [curr_user]), each of the writing views (new message, message delete, follow,
    unfollow, like toggle, unlike, profile edit, account delete) flashes
    "Access unauthorized." and redirects, and the store and the session
    stay as they were; so an anonymous POST of a new message adds no
    message row. *)
Theorem anonymous_writes_unauthorized
    (d : DB) (s : Session) (now new_id target : Z) (meth : Method)
    (mform : MessageForm) (eform : UserEditForm) :
  add_user_to_g d s = None →
  fails_unauthorized d s (messages_add now new_id d s meth mform)
  ∧ fails_unauthorized d s (messages_destroy d s target)
  ∧ fails_unauthorized d s (add_follow d s target)
  ∧ fails_unauthorized d s (stop_following d s target)
  ∧ fails_unauthorized d s (add_like d s target)
  ∧ fails_unauthorized d s (remove_like d s target)
  ∧ fails_unauthorized d s (profile d s meth eform)
  ∧ fails_unauthorized d s (delete_user d s)
  ∧ messages (db_after (messages_add now new_id d s POST mform)) = messages d.
Proof.
  intros Hg.
  unfold messages_add, messages_destroy, add_follow, stop_following,
    add_like, remove_like, profile, delete_user, fails_unauthorized.
  rewrite Hg. simpl. split_and!; eauto.
Qed.
End Gate.

Lemma anonymous_writes_unauthorized_witness :
  fails_unauthorized (mkDB [alice] [] [] []) anonymous
    (@messages_add demo 20 1 (mkDB [alice] [] [] []) anonymous POST (mkMessageForm "Hello"))
  ∧ messages (db_after (@messages_add demo 20 1 (mkDB [alice] [] [] []) anonymous POST
                          (mkMessageForm "Hello"))) = [].
Proof.
  pose proof (@anonymous_writes_unauthorized demo (mkDB [alice] [] [] []) anonymous
                20 1 1 POST (mkMessageForm "Hello")
                (mkUserEditForm "a" "a@test.com" "" "" None None "password")
                eq_refl) as (Hadd & _ & _ & _ & _ & _ & _ & _ & Hrows).
  split; [exact Hadd|exact Hrows].
Defined.

(** ** Timelines *)

Lemma insert_desc_Permutation (m : Message.t) (l : list Message.t) :
  insert_desc m l ≡ₚ m :: l.
Proof.
  induction l as [|x l IH]; simpl; [done|].
  destruct (decide (Message.timestamp m < Message.timestamp x)); [|done].
  rewrite IH. apply Permutation_swap.
Qed.

Lemma insert_desc_sorted (m : Message.t) (l : list Message.t) :
  StronglySorted newer_or_same l → StronglySorted newer_or_same (insert_desc m l).
Proof.
  induction 1 as [|x l Hs IH Hx]; simpl.
  - repeat constructor.
  - destruct (decide (Message.timestamp m < Message.timestamp x)) as [Hlt|Hge].
    + constructor; [done|].
      rewrite insert_desc_Permutation. constructor; [|done].
      unfold newer_or_same. lia.
    + constructor; [by constructor|].
      constructor; [unfold newer_or_same; lia|].
      eapply Forall_impl; [exact Hx|]. unfold newer_or_same. intros y Hy. simpl in Hy. lia.
Qed.

Lemma order_by_timestamp_desc_Permutation (l : list Message.t) :
  order_by_timestamp_desc l ≡ₚ l.
Proof.
  induction l as [|x l IH]; simpl; [done|].
  by rewrite insert_desc_Permutation, IH.
Qed.

Lemma order_by_timestamp_desc_sorted (l : list Message.t) :
  StronglySorted newer_or_same (order_by_timestamp_desc l).
Proof.
  induction l as [|x l IH]; simpl; [constructor|]. by apply insert_desc_sorted.
Qed.

Lemma limit_sorted (n : nat) (l : list Message.t) :
  StronglySorted newer_or_same l → StronglySorted newer_or_same (limit n l).
Proof.
  intros Hs. rewrite <- (take_drop n l) in Hs.
  by apply StronglySorted_app_1_l in Hs.
Qed.

Lemma limit_length (n : nat) (l : list Message.t) : (length (limit n l) ≤ n)%nat.
Proof. unfold limit. rewrite length_take. lia. Qed.

Lemma following_elem (d : DB) (u v : User.t) :
  v ∈ following d u ↔ v ∈ users d ∧ Follows.mk (User.id u) (User.id v) ∈ follows d.
Proof. unfold following. rewrite list_elem_of_filter. tauto. Qed.

Lemma homepage_shown (d : DB) (s : Session) (user : User.t) :
  add_user_to_g d s = Some user →
  shown_messages (response (homepage d s))
  = limit 100 (order_by_timestamp_desc
       (filter (λ m, Message.user_id m ∈ User.id <$> following d user) (messages d))).
Proof. intros Hg. unfold homepage. rewrite Hg. reflexivity. Qed.

Lemma homepage_shown_anonymous (d : DB) (s : Session) :
  add_user_to_g d s = None → shown_messages (response (homepage d s)) = [].
Proof. intros Hg. unfold homepage. rewrite Hg. reflexivity. Qed.

Lemma users_show_shown (d : DB) (s : Session) (user_id : Z) (user : User.t) :
  User_query_get d user_id = Some user →
  shown_messages (response (users_show d s user_id))
  = limit 100 (order_by_timestamp_desc
       (filter (λ m, Message.user_id m = user_id) (messages d))).
Proof. intros Hq. unfold users_show. rewrite Hq. reflexivity. Qed.

(** C2: the messages the home page shows.  For a logged-in viewer each of
    them is a row of the messages table whose author is a user the viewer
    follows; they come newest first; there are at most 100 of them.  Without
    a logged-in viewer the page shows none. *)
Theorem homepage_timeline (d : DB) (s : Session) :
  let tl := shown_messages (response (homepage d s)) in
  (∀ viewer m,
     add_user_to_g d s = Some viewer →
     m ∈ tl →
     m ∈ messages d
     ∧ ∃ author, author ∈ following d viewer
                 ∧ Message.user_id m = User.id author
                 ∧ Follows.mk (User.id viewer) (Message.user_id m) ∈ follows d)
  ∧ StronglySorted newer_or_same tl
  ∧ (length tl ≤ 100)%nat
  ∧ (add_user_to_g d s = None → tl = []).
Proof.
  intros tl. subst tl.
  destruct (add_user_to_g d s) as [user|] eqn:Hg.
  - rewrite (homepage_shown d s user Hg). split_and!.
    + intros viewer m [= <-] Hm.
      apply subseteq_take in Hm.
      rewrite order_by_timestamp_desc_Permutation in Hm.
      apply list_elem_of_filter in Hm as [Hauthor Hrow].
      split; [done|].
      apply list_elem_of_fmap in Hauthor as (author & Hid & Hfol).
      exists author. split_and!; [done|done|].
      apply following_elem in Hfol as [_ Hedge]. by rewrite Hid.
    + apply limit_sorted, order_by_timestamp_desc_sorted.
    + apply limit_length.
    + done.
  - rewrite (homepage_shown_anonymous d s Hg).
    split_and!; [done|constructor|simpl; lia|done].
Qed.

Lemma homepage_timeline_witness :
  let d := mkDB [alice; bob]
                [Message.mk 1 "Hello" 10 1; Message.mk 2 "Mine" 11 2; Message.mk 3 "Again" 12 1]
                [Follows.mk 2 1] [] in
  shown_messages (response (homepage d (as_user 2)))
  = [Message.mk 3 "Again" 12 1; Message.mk 1 "Hello" 10 1]
  ∧ Follows.mk 2 1 ∈ follows d.
Proof.
  intros d. split; [reflexivity|].
  destruct (homepage_timeline d (as_user 2)) as (Hfrom & _).
  destruct (Hfrom bob (Message.mk 3 "Again" 12 1) eq_refl) as (_ & _ & _ & _ & Hedge);
    [apply list_elem_of_here|exact Hedge].
Defined.

Lemma order_by_limit_admitted (rows : list Message.t) :
  order_by_admits rows (limit 100 (order_by_timestamp_desc rows)).
Proof.
  exists (order_by_timestamp_desc rows). split_and!.
  - apply order_by_timestamp_desc_Permutation.
  - apply order_by_timestamp_desc_sorted.
  - done.
Qed.

(** Two results the ordering clause allows for the same rows have the same
    timestamps, place by place. *)
Lemma admitted_same_timestamps (rows r1 r2 : list Message.t) :
  order_by_admits rows r1 → order_by_admits rows r2 →
  Message.timestamp <$> r1 = Message.timestamp <$> r2.
Proof.
  intros (s1 & Hp1 & Hs1 & ->) (s2 & Hp2 & Hs2 & ->).
  rewrite !fmap_take. f_equal.
  apply (StronglySorted_unique_strong (λ a b : Z, b ≤ a)).
  - intros a b _ _ Hab Hba. lia.
  - by apply (StronglySorted_fmap _ newer_or_same).
  - by apply (StronglySorted_fmap _ newer_or_same).
  - by rewrite Hp1, Hp2.
Qed.

(** C9, as stated, fails: on [db_tie] the two messages of [alice] have the
    same timestamp, and the query of the home timeline of [bob], like the
    query of the user timeline of [alice], allows them in either order.
    So the code does not fix one sequence for the stored state, and the
    result with message 1 before message 2 does not have the larger
    identifier first. *)
Lemma timeline_ties_not_by_id :
  let m1 := Message.mk 1 "Hello" 10 1 in
  let m2 := Message.mk 2 "World" 10 1 in
  add_user_to_g db_tie (as_user 2) = Some bob
  ∧ home_timeline_admits db_tie bob [m1; m2]
  ∧ home_timeline_admits db_tie bob [m2; m1]
  ∧ user_timeline_admits db_tie 1 [m1; m2]
  ∧ user_timeline_admits db_tie 1 [m2; m1]
  ∧ [m1; m2] ≠ [m2; m1]
  ∧ ¬ StronglySorted newer_then_larger_id [m1; m2].
Proof.
  intros m1 m2.
  assert (∀ a b, Message.timestamp a = 10 → Message.timestamp b = 10 →
                 StronglySorted newer_or_same [a; b]) as Hsorted.
  { intros a b Ha Hb. repeat constructor. unfold newer_or_same. lia. }
  assert (order_by_admits [m1; m2] [m1; m2]) as H12.
  { exists [m1; m2]. split_and!; [done|by apply Hsorted|done]. }
  assert (order_by_admits [m1; m2] [m2; m1]) as H21.
  { exists [m2; m1]. split_and!; [apply Permutation_swap|by apply Hsorted|done]. }
  split_and!; [reflexivity|exact H12|exact H21|exact H12|exact H21|discriminate|].
  intros Hs. apply StronglySorted_inv in Hs as [_ Hall].
  apply Forall_cons in Hall as [Hfirst _].
  unfold newer_then_larger_id in Hfirst. simpl in Hfirst. lia.
Qed.

(** C9, amended: both timelines are ordered by the timestamp alone, with no
    second key.  The home timeline of a logged-in viewer is a result of
    ordering the messages of the followed users newest first and cutting
    after 100, and the user timeline of an existing user a result of doing
    so with the messages of that user.  Two such results over the same
    stored messages carry the same timestamps place by place: they can
    differ only in which messages of equal timestamp stand where. *)
Theorem timelines_newest_first_ties_open (d : DB) (s : Session) :
  (∀ viewer,
     add_user_to_g d s = Some viewer →
     home_timeline_admits d viewer (shown_messages (response (homepage d s))))
  ∧ (∀ user_id user,
     User_query_get d user_id = Some user →
     user_timeline_admits d user_id (shown_messages (response (users_show d s user_id))))
  ∧ (∀ viewer r1 r2,
     home_timeline_admits d viewer r1 → home_timeline_admits d viewer r2 →
     Message.timestamp <$> r1 = Message.timestamp <$> r2)
  ∧ (∀ user_id r1 r2,
     user_timeline_admits d user_id r1 → user_timeline_admits d user_id r2 →
     Message.timestamp <$> r1 = Message.timestamp <$> r2).
Proof.
  split_and!.
  - intros viewer Hg. unfold home_timeline_admits.
    rewrite (homepage_shown d s viewer Hg). apply order_by_limit_admitted.
  - intros user_id user Hq. unfold user_timeline_admits.
    rewrite (users_show_shown d s user_id user Hq). apply order_by_limit_admitted.
  - intros viewer r1 r2. apply admitted_same_timestamps.
  - intros user_id r1 r2. apply admitted_same_timestamps.
Qed.

Lemma timelines_newest_first_ties_open_witness :
  home_timeline_admits db_tie bob (shown_messages (response (homepage db_tie (as_user 2))))
  ∧ Message.timestamp <$> [Message.mk 1 "Hello" 10 1; Message.mk 2 "World" 10 1]
    = Message.timestamp <$> [Message.mk 2 "World" 10 1; Message.mk 1 "Hello" 10 1].
Proof.
  destruct (timelines_newest_first_ties_open db_tie (as_user 2)) as (Hhome & _ & Hsame & _).
  assert (∀ a b, Message.timestamp a = 10 → Message.timestamp b = 10 →
                 StronglySorted newer_or_same [a; b]) as Hsorted.
  { intros a b Ha Hb. repeat constructor. unfold newer_or_same. lia. }
  split; [exact (Hhome bob eq_refl)|].
  apply (Hsame bob).
  - exists [Message.mk 1 "Hello" 10 1; Message.mk 2 "World" 10 1].
    split_and!; [reflexivity|apply Hsorted; reflexivity|reflexivity].
  - exists [Message.mk 2 "World" 10 1; Message.mk 1 "Hello" 10 1].
    split_and!; [apply Permutation_swap|apply Hsorted; reflexivity|reflexivity].
Defined.

(** ** Credentials *)

Section Credentials.
Context `{Collaborators}.

Lemma User_authenticate_unknown (d : DB) (username password : string) :
  unknown_username d username → User_authenticate d username password = None.
Proof.
  intros Hun. unfold User_authenticate.
  by apply (head_filter_None (λ u, User.username u = username)) in Hun as ->.
Qed.

Lemma User_authenticate_wrong (d : DB) (username password : string) :
  wrong_password d username password → User_authenticate d username password = None.
Proof. intros (u & Hu & Hpw). unfold User_authenticate. by rewrite Hu, Hpw. Qed.

Lemma login_no_match (d : DB) (s : Session) (meth : Method) (form : LoginForm) :
  User_authenticate d (login_username form) (login_password form) = None →
  login d s meth form = login_refused d s meth form.
Proof.
  intros Hnone. unfold login, login_refused. rewrite Hnone.
  by destruct (validate_on_submit meth (validate_LoginForm form)).
Qed.

(** C5: [User.authenticate] returns no user both for a username no row
    has and for the username of a row whose hash does not verify the
    password, and the [login] view answers the two in one way: the login
    form the caller sent, the flash "Invalid credentials." when the form
    was a valid submission, no login and no write.  So two submissions
    that validate alike get the same flash, and the same credentials
    submitted where the username is unknown and where the password is
    wrong get the same response. *)
Theorem login_failures_indistinguishable
    (d1 d2 : DB) (s : Session) (meth : Method) (form1 form2 : LoginForm) :
  unknown_username d1 (login_username form1) →
  wrong_password d2 (login_username form2) (login_password form2) →
  User_authenticate d1 (login_username form1) (login_password form1) = None
  ∧ User_authenticate d2 (login_username form2) (login_password form2) = None
  ∧ login d1 s meth form1 = login_refused d1 s meth form1
  ∧ login d2 s meth form2 = login_refused d2 s meth form2
  ∧ (validate_LoginForm form1 = validate_LoginForm form2 →
     flashed (login d1 s meth form1) = flashed (login d2 s meth form2))
  ∧ (form1 = form2 →
     response (login d1 s meth form1) = response (login d2 s meth form2)
     ∧ flashed (login d1 s meth form1) = flashed (login d2 s meth form2)
     ∧ session_after (login d1 s meth form1) = session_after (login d2 s meth form2)).
Proof.
  intros Hun Hwrong.
  pose proof (User_authenticate_unknown d1 _ (login_password form1) Hun) as H1.
  pose proof (User_authenticate_wrong d2 _ _ Hwrong) as H2.
  rewrite (login_no_match d1 s meth form1 H1), (login_no_match d2 s meth form2 H2).
  unfold login_refused. simpl. split_and!; try done.
  - by intros ->.
  - by intros ->.
Qed.
End Credentials.

Lemma login_failures_indistinguishable_witness :
  response (@login demo (mkDB [bob] [] [] []) anonymous POST (mkLoginForm "alice" "letmein"))
  = response (@login demo (mkDB [alice; bob] [] [] []) anonymous POST
                (mkLoginForm "alice" "letmein"))
  ∧ flashed (@login demo (mkDB [alice; bob] [] [] []) anonymous POST
               (mkLoginForm "alice" "letmein"))
    = [("Invalid credentials.", "danger")].
Proof.
  assert (@unknown_username (mkDB [bob] [] [] []) "alice") as Hun.
  { unfold unknown_username. simpl. repeat constructor. discriminate. }
  assert (@wrong_password demo (mkDB [alice; bob] [] [] []) "alice" "letmein") as Hwrong.
  { exists alice. split; reflexivity. }
  destruct (@login_failures_indistinguishable demo (mkDB [bob] [] [] [])
              (mkDB [alice; bob] [] [] []) anonymous POST
              (mkLoginForm "alice" "letmein") (mkLoginForm "alice" "letmein")
              Hun Hwrong) as (_ & _ & _ & _ & _ & Hsame).
  destruct (Hsame eq_refl) as (Hresp & _ & _).
  split; [exact Hresp|reflexivity].
Defined.

(** ** Signup *)

Section Signup.
Context `{Collaborators}.

(** A signup that collides with a stored user writes nothing: the form is
    shown again, no user row is added and nobody is logged in.  When it is
    the username that collides, the flash says that the username is
    taken. *)
Lemma signup_collision_no_write
    (new_id : Z) (d : DB) (s : Session) (form : UserAddForm) (u : User.t) :
  u ∈ users d →
  validate_UserAddForm form = true →
  add_username form ≠ "" →
  add_email form ≠ "" →
  add_password form ≠ "" →
  add_username form = User.username u ∨ add_email form = User.email u →
  let o := signup new_id d s POST form in
  response o = RenderTemplate "users/signup.html" [("form", ArgUserAddForm form)]
  ∧ db_after o = d
  ∧ session_after o = s
  ∧ (add_username form = User.username u →
     flashed o = [("Username already taken", "danger")]
     ∧ reported_field o = Some FieldUsername
     ∧ collides d form FieldUsername).
Proof.
  intros Hu Hvalid Hname Hmail Hpw Hdup o.
  assert (o = mkOutcome (RenderTemplate "users/signup.html" [("form", ArgUserAddForm form)])
                        [("Username already taken", "danger")] d s) as Ho.
  { subst o. unfold signup, User_signup. simpl. rewrite Hvalid.
    rewrite decide_False by tauto.
    unfold commit_new_user. simpl. rewrite decide_True; [done|].
    apply Exists_exists. exists u. split; [done|]. destruct Hdup; auto. }
  rewrite Ho. split_and!; [done|done|done|].
  intros Hsame. split_and!; [done|done|].
  simpl. apply Exists_exists. by exists u.
Qed.
End Signup.

(** C6: the view reports every refused commit as a taken username.  With
    [alice] and [bob] in the store, a valid signup under the new username
    "carol" and the email of [alice] is refused by the unique index on the
    email; the view shows the form again, writes nothing and flashes
    "Username already taken", though no user has that username: the
    field the flash names is not the one that collides. *)
Theorem signup_email_collision_names_username :
  let d := mkDB [alice; bob] [] [] [] in
  let form := mkUserAddForm "carol" "alice@test.com" "secret" "" in
  let o := @signup demo 3 d anonymous POST form in
  response o = RenderTemplate "users/signup.html" [("form", ArgUserAddForm form)]
  ∧ db_after o = d
  ∧ flashed o = [("Username already taken", "danger")]
  ∧ reported_field o = Some FieldUsername
  ∧ collides d form FieldEmail
  ∧ ¬ collides d form FieldUsername
  ∧ ¬ (∃ f, reported_field o = Some f ∧ collides d form f).
Proof.
  intros d form o.
  assert (¬ collides d form FieldUsername) as Hno.
  { simpl. rewrite Exists_cons, Exists_cons, Exists_nil. simpl.
    intros [?|[?|[]]]; discriminate. }
  split_and!; [reflexivity|reflexivity|reflexivity|reflexivity| |exact Hno|].
  - simpl. by apply Exists_cons_hd.
  - intros (f & Hf & Hc). vm_compute in Hf. injection Hf as <-. by apply Hno.
Qed.

(** ** Deleting a message *)

(** Whoever is logged in, [messages_destroy] deletes the row it finds. *)
Lemma messages_destroy_any_requester
    (d : DB) (s : Session) (user : User.t) (msg : Message.t) (mid : Z) :
  add_user_to_g d s = Some user →
  Message_query_get d mid = Some msg →
  messages_destroy d s mid
  = mkOutcome (Redirect ("/users/" +:+ pretty (User.id user))) [] (delete_message d msg) s.
Proof. intros Hg Hm. unfold messages_destroy. by rewrite Hg, Hm. Qed.

(** C1: the view has no ownership check.  With message 1 owned by [alice],
    the delete request of [bob], logged in, is answered with the redirect
    to the page of [bob] and no flash, and the row is gone. *)
Theorem messages_destroy_by_non_owner :
  let d := mkDB [alice; bob] [Message.mk 1 "Hello" 10 1] [] [] in
  let o := messages_destroy d (as_user 2) 1 in
  (Message.user_id <$> Message_query_get d 1) = Some (User.id alice)
  ∧ add_user_to_g d (as_user 2) = Some bob
  ∧ response o = Redirect "/users/2"
  ∧ flashed o = []
  ∧ messages (db_after o) = [].
Proof. split_and!; reflexivity. Qed.

(** ** Unfollowing *)

(** Without the edge, [stop_following] ends in the [ValueError] of
    [list.remove]; nothing is committed. *)
Lemma stop_following_without_edge (d : DB) (s : Session) (user : User.t) (follow_id : Z) :
  add_user_to_g d s = Some user →
  Follows.mk (User.id user) follow_id ∉ follows d →
  stop_following d s follow_id = mkOutcome (Raised ValueError) [] d s.
Proof.
  intros Hg Hout. unfold stop_following, following_remove. rewrite Hg.
  destruct (User_query_get d follow_id) as [v|] eqn:Hq; [|done].
  apply head_filter_Some in Hq as [_ Hid]. rewrite Hid.
  by rewrite decide_False.
Qed.

(** C7: [alice], logged in, follows nobody and asks to stop following
    [bob]: the request ends in an uncaught [ValueError] instead of a
    redirect.  The follows table is as it was. *)
Theorem stop_following_not_followed_raises :
  let d := mkDB [alice; bob] [] [] [] in
  let o := stop_following d (as_user 1) 2 in
  add_user_to_g d (as_user 1) = Some alice
  ∧ (Follows.mk 1 2 ∉ follows d)
  ∧ response o = Raised ValueError
  ∧ follows (db_after o) = follows d.
Proof. split_and!; [reflexivity|apply not_elem_of_nil|reflexivity|reflexivity]. Qed.

(** ** The follow graph over runs of requests *)

Section Runs.
Context `{Collaborators}.

Lemma add_follow_edges (d : DB) (s : Session) (follow_id : Z) (e : Follows.t) :
e ∈ follows (db_after (add_follow d s follow_id)) →
e ∈ follows d
∨ ∃ user, add_user_to_g d s = Some user ∧ e = Follows.mk (User.id user) follow_id.
Proof.
unfold add_follow. destruct (add_user_to_g d s) as [user|]; [|by left].
destruct (User_query_get d follow_id) as [v|] eqn:Hq; [|by left].
apply head_filter_Some in Hq as [_ Hid]. simpl.
destruct (decide (Follows.mk (User.id user) (User.id v) ∈ follows d)); [by left|].
simpl. rewrite elem_of_app, list_elem_of_singleton. intros [?| ->]; [by left|].
right. exists user. by rewrite Hid.
Qed.

Lemma dispatch_edges (r : Request) (d : DB) (s : Session) (e : Follows.t) :
e ∈ follows (db_after (dispatch r d s)) →
e ∈ follows d
∨ ∃ user follow_id, add_user_to_g d s = Some user
                    ∧ r = ReqAddFollow follow_id
                    ∧ e = Follows.mk (User.id user) follow_id.
Proof.
destruct r; simpl.
- unfold signup. destruct (validate_on_submit _ _); [|by left].
  destruct (User_signup _ _ _ _ _); [by left|].
  unfold commit_new_user. destruct (decide _); by left.
- unfold login. destruct (validate_on_submit _ _); [|by left].
  destruct (User_authenticate _ _ _); by left.
- by left.
- unfold users_show. destruct (User_query_get _ _); by left.
- intros He. apply add_follow_edges in He as [?|(user & ? & ?)]; [by left|].
  right. by exists user, follow_id.
- unfold stop_following. destruct (add_user_to_g d s) as [user|]; [|by left].
  unfold following_remove. destruct (User_query_get d follow_id) as [v|]; [|by left].
  destruct (decide _); [|by left]. simpl. intros He. left.
  by apply delete_row_subseteq in He.
- unfold profile. destruct (add_user_to_g d s) as [user|]; [|by left].
  destruct (validate_on_submit _ _); [|by left].
  simpl. destruct (check_password_hash _ _); [|by left].
  unfold commit_user_update. destruct (decide _); by left.
- unfold delete_user. destruct (add_user_to_g d s) as [user|]; [|by left].
  simpl. intros He. left. by apply list_elem_of_filter in He as [_ ?].
- unfold messages_add. destruct (add_user_to_g d s) as [user|]; [|by left].
  destruct (validate_on_submit _ _); by left.
- by left.
- unfold messages_destroy. destruct (add_user_to_g d s) as [user|]; [|by left].
  destruct (Message_query_get _ _); by left.
- unfold homepage. destruct (add_user_to_g d s); by left.
- intros He. left. destruct (add_like_same_but_likes d s message_id) as (_ & _ & Hf).
  by rewrite Hf in He.
- unfold remove_like. destruct (add_user_to_g d s) as [user|]; [|by left].
  destruct (Message_query_get _ _); [|by left].
  destruct (Likes_query_first _ _ _); by left.
Qed.

Lemma dispatch_no_self_follow (r : Request) (d : DB) (s : Session) :
no_self_follow d → ¬ follows_self d s r → no_self_follow (db_after (dispatch r d s)).
Proof.
unfold no_self_follow. rewrite !Forall_forall. intros Hinv Hnot e He.
apply dispatch_edges in He as [Hold|(user & follow_id & Hg & Hr & He)]; [by apply Hinv|].
subst r e. simpl. intros Heq. apply Hnot. exists user. by rewrite Heq.
Qed.

(** C8, amended: [add_follow] does not reject a user following their own
  identifier: the edge from the user to the user is in the follows table
  afterwards.  It is the only way such an edge comes about: after any run
  of requests in which no logged-in user asks to follow their own
  identifier, a follows table that had no edge from a user to itself has
  none. *)
Theorem self_follow_only_on_request (rs : list (Session * Request)) (d : DB) :
(∀ s user,
   add_user_to_g d s = Some user →
   Follows.mk (User.id user) (User.id user)
     ∈ follows (db_after (add_follow d s (User.id user))))
∧ (no_self_follow d → never_follows_self rs d → no_self_follow (serve rs d)).
Proof.
split.
- intros s user Hg. unfold add_follow. rewrite Hg.
  apply add_user_to_g_Some in Hg as [_ Hq]. rewrite Hq. simpl.
  destruct (decide _) as [Hin|Hout]; [done|].
  simpl. apply elem_of_app. right. apply list_elem_of_here.
- revert d. induction rs as [|[s r] rs IH]; intros d Hinv Hnever; simpl; [done|].
  destruct Hnever as [Hnot Hrest].
  apply IH; [|done]. by apply dispatch_no_self_follow.
Qed.
End Runs.

Lemma self_follow_only_on_request_witness :
  let d := mkDB [alice; bob] [] [Follows.mk 2 1] [] in
  no_self_follow
    (@serve demo [(as_user 1, ReqAddFollow 2); (as_user 2, ReqStopFollowing 1);
                  (as_user 2, ReqMessagesAdd 20 1 POST (mkMessageForm "Hello"))] d).
Proof.
  intros d.
  apply (@self_follow_only_on_request demo).
  - unfold no_self_follow. repeat constructor. simpl. lia.
  - simpl. split_and!; [| | |exact I].
    + intros (user & Hg & Hr). injection Hg as <-. discriminate Hr.
    + intros (user & _ & Hr). discriminate Hr.
    + intros (user & _ & Hr). discriminate Hr.
Defined.

(** C8, as stated, fails: [alice], logged in, asks to follow her own
    identifier on a store without follow edges; the request is answered
    with the redirect to her following page and the follows table then
    holds the edge from her to herself. *)
Lemma add_follow_accepts_self :
  let d := mkDB [alice; bob] [] [] [] in
  let o := add_follow d (as_user 1) 1 in
  no_self_follow d
  ∧ response o = Redirect "/users/1/following"
  ∧ follows (db_after o) = [Follows.mk 1 1]
  ∧ ¬ no_self_follow (db_after o).
Proof.
  split_and!; [constructor|reflexivity|reflexivity|].
  intros Hinv. apply Forall_cons in Hinv as [Hne _]. by apply Hne.
Qed.

(** ** Sessions: logging in and out *)

Lemma filter_unique_key {A B} `{EqDecision B} (f : A → B) (l : list A) (x : A) :
  NoDup (f <$> l) → x ∈ l → filter (λ y, f y = f x) l = [x].
Proof.
  induction l as [|y l IH]; intros Hnd Hx; [by apply elem_of_nil in Hx|].
  rewrite fmap_cons in Hnd. apply NoDup_cons in Hnd as [Hy Hnd].
  rewrite filter_cons. apply elem_of_cons in Hx as [->|Hx].
  - rewrite decide_True by done. f_equal.
    apply (proj1 (head_None _)).
    apply (head_filter_None (λ z, f z = f y)). apply Forall_forall.
    intros z Hz Heq. apply Hy. rewrite <- Heq. by apply list_elem_of_fmap_2.
  - rewrite decide_False; [by apply IH|].
    intros Heq. apply Hy. rewrite Heq. by apply list_elem_of_fmap_2.
Qed.

Lemma User_query_get_elem (d : DB) (u : User.t) :
  unique_user_ids d → u ∈ users d → User_query_get d (User.id u) = Some u.
Proof.
  intros Hnd Hu. unfold User_query_get.
  by rewrite (filter_unique_key User.id (users d) u Hnd Hu).
Qed.

Lemma add_user_to_g_do_login (d : DB) (s : Session) (user : User.t) :
  User_query_get d (User.id user) = Some user →
  add_user_to_g d (do_login user s) = Some user.
Proof.
  intros Hq. unfold add_user_to_g, do_login. by rewrite lookup_insert_eq.
Qed.

Lemma add_user_to_g_do_logout (d : DB) (s : Session) :
  add_user_to_g d (do_logout s) = None.
Proof. unfold add_user_to_g, do_logout. by rewrite lookup_delete_eq. Qed.

Section Sessions.
Context `{Collaborators}.

(** X1: the credentials of a stored user log that user in.  With user
    identifiers and usernames unique in the store, a valid submission of
    the username of a user and a password its hash verifies is answered
    with the redirect to the home page and the greeting by name; the store
    is as it was, and the session the answer leaves makes that user the
    [g.user] of the next request. *)
Theorem login_success_session
    (d : DB) (s : Session) (form : LoginForm) (user : User.t) :
  unique_user_ids d →
  NoDup (User.username <$> users d) →
  user ∈ users d →
  login_username form = User.username user →
  check_password_hash (User.password user) (login_password form) = true →
  validate_LoginForm form = true →
  let o := login d s POST form in
  response o = Redirect "/"
  ∧ flashed o = [("Hello, " +:+ User.username user +:+ "!", "success")]
  ∧ db_after o = d
  ∧ session_after o !! CURR_USER_KEY = Some (User.id user)
  ∧ add_user_to_g d (session_after o) = Some user.
Proof.
  intros Hids Hnames Hu Hname Hpw Hvalid o. subst o.
  unfold login, User_authenticate. simpl. rewrite Hvalid, Hname.
  rewrite (filter_unique_key User.username (users d) user Hnames Hu). simpl.
  rewrite Hpw. simpl.
  split_and!; [done|done|done| |].
  - unfold do_login. by rewrite lookup_insert_eq.
  - apply add_user_to_g_do_login. by apply User_query_get_elem.
Qed.

(** X3: signing up and then logging in.  A valid signup with non-empty
    fields whose username and email no stored user has, under an
    identifier no stored user has, appends one user row, greets, redirects
    to the home page and leaves a session that makes the new user the
    [g.user] of the next request.  When the hash made of the password
    verifies it, a later valid login with the same username and password,
    from any session, succeeds as that user. *)
Theorem signup_then_login
    (new_id : Z) (d : DB) (s s' : Session) (form : UserAddForm) :
  validate_UserAddForm form = true →
  validate_LoginForm (mkLoginForm (add_username form) (add_password form)) = true →
  add_username form ≠ "" →
  add_email form ≠ "" →
  add_password form ≠ "" →
  Forall (λ u, User.username u ≠ add_username form
               ∧ User.email u ≠ add_email form
               ∧ User.id u ≠ new_id) (users d) →
  check_password_hash (generate_password_hash (add_password form)) (add_password form)
  = true →
  let o := signup new_id d s POST form in
  let o' := login (db_after o) s' POST
              (mkLoginForm (add_username form) (add_password form)) in
  ∃ user,
    User.id user = new_id
    ∧ User.username user = add_username form
    ∧ User.email user = add_email form
    ∧ response o = Redirect "/"
    ∧ flashed o = [("Welcome to Warbler", "success")]
    ∧ db_after o = set_users d (users d ++ [user])
    ∧ add_user_to_g (db_after o) (session_after o) = Some user
    ∧ response o' = Redirect "/"
    ∧ flashed o' = [("Hello, " +:+ add_username form +:+ "!", "success")]
    ∧ db_after o' = db_after o
    ∧ add_user_to_g (db_after o) (session_after o') = Some user.
Proof.
  intros Hvalid Hvalid' Hname Hmail Hpw Hfresh Hhash o o'.
  set (user := User.mk new_id (add_username form) (add_email form)
                 (generate_password_hash (add_password form))
                 (or_default (add_image_url form) default_image_url)
                 default_header_image_url None None).
  assert (o = mkOutcome (Redirect "/") [("Welcome to Warbler", "success")]
                (set_users d (users d ++ [user])) (do_login user s)) as Ho.
  { subst o. unfold signup, User_signup. simpl. rewrite Hvalid.
    rewrite decide_False by tauto. fold user.
    unfold commit_new_user. rewrite decide_False; [done|].
    rewrite Exists_exists. intros (v & Hv & Hcol).
    rewrite Forall_forall in Hfresh. destruct (Hfresh v Hv) as (? & ? & ?).
    simpl in Hcol. destruct Hcol; done. }
  assert (∀ l : list User.t,
            Forall (λ u, User.username u ≠ add_username form
                         ∧ User.email u ≠ add_email form
                         ∧ User.id u ≠ new_id) l →
            filter (λ u, User.id u = new_id) (l ++ [user]) = [user]
            ∧ filter (λ u, User.username u = add_username form) (l ++ [user]) = [user])
    as Hfilters.
  { intros l Hl. induction Hl as [|v l (Hn & _ & Hi) _ [IH1 IH2]].
    - split; simpl; (rewrite filter_cons_True; [done|reflexivity]).
    - simpl. by rewrite !filter_cons_False. }
  destruct (Hfilters _ Hfresh) as [Hbyid Hbyname].
  set (d1 := set_users d (users d ++ [user])) in *.
  assert (User_query_get d1 new_id = Some user) as Hq.
  { unfold User_query_get, d1. simpl. by rewrite Hbyid. }
  assert (o' = mkOutcome (Redirect "/")
                 [("Hello, " +:+ add_username form +:+ "!", "success")]
                 d1 (do_login user s')) as Ho'.
  { subst o'. rewrite Ho. unfold login, User_authenticate. simpl.
    rewrite Hvalid', Hbyname. simpl. by rewrite Hhash. }
  exists user. rewrite Ho', Ho. simpl.
  split_and!; try done; by apply add_user_to_g_do_login.
Qed.

(** X2: [logout] forgets the login, whoever asks.  Whether or not the
    session held a login, the view answers with the redirect to the login
    page and the logged-out flash, without an error and without a write,
    and under the session it leaves [g.user] is [None] on any store; a
    second logout is answered in the same way and leaves the same login
    entry. *)
Theorem logout_forgets_login (d d' : DB) (s : Session) :
  let o := logout d s in
  let o' := logout (db_after o) (session_after o) in
  response o = Redirect "/login"
  ∧ flashed o = [("You have been successfully logged out.", "success")]
  ∧ db_after o = d
  ∧ session_after o !! CURR_USER_KEY = None
  ∧ add_user_to_g d' (session_after o) = None
  ∧ response o' = response o
  ∧ flashed o' = flashed o
  ∧ db_after o' = d
  ∧ session_after o' !! CURR_USER_KEY = session_after o !! CURR_USER_KEY
  ∧ add_user_to_g d' (session_after o') = None.
Proof.
  simpl. unfold do_logout.
  split_and!; try done.
  - by rewrite lookup_delete_eq.
  - apply add_user_to_g_do_logout.
  - by rewrite !lookup_delete_eq.
  - apply add_user_to_g_do_logout.
Qed.

(** X4: a GET never writes.  The four views that take a form ([signup],
    [login], [profile], [messages_add]) leave the store and the session as
    they were when the request is a GET, whoever sends it and whatever
    the form holds. *)
Theorem get_never_writes
    (d : DB) (s : Session) (now new_id : Z)
    (aform : UserAddForm) (lform : LoginForm) (eform : UserEditForm) (mform : MessageForm) :
  (db_after (signup new_id d s GET aform) = d
   ∧ session_after (signup new_id d s GET aform) = s
   ∧ flashed (signup new_id d s GET aform) = [])
  ∧ (db_after (login d s GET lform) = d
     ∧ session_after (login d s GET lform) = s
     ∧ flashed (login d s GET lform) = [])
  ∧ (db_after (profile d s GET eform) = d ∧ session_after (profile d s GET eform) = s)
  ∧ (db_after (messages_add now new_id d s GET mform) = d
     ∧ session_after (messages_add now new_id d s GET mform) = s).
Proof.
  unfold signup, login, profile, messages_add. simpl.
  destruct (add_user_to_g d s); done.
Qed.
End Sessions.

Lemma login_success_session_witness :
  let o := @login demo (mkDB [alice; bob] [] [] []) anonymous POST
             (mkLoginForm "bob" "hunter22") in
  flashed o = [("Hello, bob!", "success")]
  ∧ add_user_to_g (mkDB [alice; bob] [] [] []) (session_after o) = Some bob.
Proof.
  intros o.
  assert (NoDup [1; 2]) as Hids.
  { apply (bool_decide_unpack _). reflexivity. }
  assert (NoDup ["alice"; "bob"]) as Hnames.
  { apply (bool_decide_unpack _). reflexivity. }
  destruct (@login_success_session demo (mkDB [alice; bob] [] [] []) anonymous
              (mkLoginForm "bob" "hunter22") bob Hids Hnames)
    as (_ & Hflash & _ & _ & Hg).
  - apply list_elem_of_further, list_elem_of_here.
  - reflexivity.
  - reflexivity.
  - reflexivity.
  - split; [exact Hflash|exact Hg].
Defined.

Lemma signup_then_login_witness :
  let o := @signup demo 3 (mkDB [alice; bob] [] [] []) anonymous POST
             (mkUserAddForm "carol" "carol@test.com" "secret" "") in
  ∃ user, User.id user = 3
          ∧ add_user_to_g (db_after o) (session_after o) = Some user
          ∧ flashed (@login demo (db_after o) anonymous POST (mkLoginForm "carol" "secret"))
            = [("Hello, carol!", "success")].
Proof.
  intros o.
  destruct (@signup_then_login demo 3 (mkDB [alice; bob] [] [] []) anonymous anonymous
              (mkUserAddForm "carol" "carol@test.com" "secret" ""))
    as (user & Hid & _ & _ & _ & _ & _ & Hg & _ & Hflash & _).
  - reflexivity.
  - reflexivity.
  - discriminate.
  - discriminate.
  - discriminate.
  - repeat constructor; discriminate.
  - reflexivity.
  - exists user. split_and!; [exact Hid|exact Hg|exact Hflash].
Defined.

(** ** Identifiers that match no row *)

(** X5: the views that look their target up with [get_or_404].  For a
    logged-in caller, an identifier no user has is answered with the 404
    page by [add_follow], [show_following], [users_followers] and
    [show_likes], and an identifier no message has by [add_like] and
    [remove_like]; [users_show] answers so to any caller.  None of them
    flashes or writes. *)
Theorem missing_target_not_found (d : DB) (s : Session) (caller : User.t) (target : Z) :
  add_user_to_g d s = Some caller →
  (User_query_get d target = None →
     add_follow d s target = mkOutcome NotFound [] d s
     ∧ show_following d s target = mkOutcome NotFound [] d s
     ∧ users_followers d s target = mkOutcome NotFound [] d s
     ∧ show_likes d s target = mkOutcome NotFound [] d s
     ∧ ∀ s', users_show d s' target = mkOutcome NotFound [] d s')
  ∧ (Message_query_get d target = None →
     add_like d s target = mkOutcome NotFound [] d s
     ∧ remove_like d s target = mkOutcome NotFound [] d s).
Proof.
  intros Hg. split; intros Hq.
  - unfold add_follow, show_following, users_followers, show_likes, users_show.
    by rewrite Hg, Hq.
  - unfold add_like, remove_like. by rewrite Hg, Hq.
Qed.

Lemma missing_target_not_found_witness :
  add_follow (mkDB [alice; bob] [] [] []) (as_user 1) 7
  = mkOutcome NotFound [] (mkDB [alice; bob] [] [] []) (as_user 1)
  ∧ add_like (mkDB [alice; bob] [] [] []) (as_user 1) 7
    = mkOutcome NotFound [] (mkDB [alice; bob] [] [] []) (as_user 1).
Proof.
  destruct (missing_target_not_found (mkDB [alice; bob] [] [] []) (as_user 1) alice 7 eq_refl)
    as [Huser Hmsg].
  destruct (Huser eq_refl) as (Hfollow & _).
  destruct (Hmsg eq_refl) as (Hlike & _).
  split; [exact Hfollow|exact Hlike].
Defined.

(** X6: the message views that look their target up with a plain [get].
    For an identifier no message has, [messages_destroy] asked by a
    logged-in caller hands [None] to [db.session.delete] and ends in the
    uncaught [UnmappedInstanceError], with nothing written; [messages_show]
    renders its page with no message, for any caller. *)
Theorem missing_message_unguarded (d : DB) (s : Session) (caller : User.t) (message_id : Z) :
  add_user_to_g d s = Some caller →
  Message_query_get d message_id = None →
  messages_destroy d s message_id = mkOutcome (Raised UnmappedInstanceError) [] d s
  ∧ ∀ s', messages_show d s' message_id
          = mkOutcome (RenderTemplate "messages/show.html" [("message", ArgMessage None)])
                      [] d s'.
Proof.
  intros Hg Hq. unfold messages_destroy, messages_show. by rewrite Hg, Hq.
Qed.

Lemma missing_message_unguarded_witness :
  response (messages_destroy (mkDB [alice; bob] [] [] []) (as_user 1) 7)
  = Raised UnmappedInstanceError.
Proof.
  destruct (missing_message_unguarded (mkDB [alice; bob] [] [] []) (as_user 1) alice 7
              eq_refl eq_refl) as [Hdestroy _].
  by rewrite Hdestroy.
Defined.

(** X7: the read views behind the gate.  Without a logged-in user,
    [show_following] and [users_followers] flash "Access unauthorized.
    Please log in." and redirect to the home page, and [show_likes]
    flashes "Access unauthorized." and redirects to the login page, whether
    or not the user asked about exists; the store and the session are as
    they were. *)
Theorem anonymous_reads_refused (d : DB) (s : Session) (user_id : Z) :
  add_user_to_g d s = None →
  show_following d s user_id
  = mkOutcome (Redirect "/") [("Access unauthorized. Please log in.", "danger")] d s
  ∧ users_followers d s user_id
    = mkOutcome (Redirect "/") [("Access unauthorized. Please log in.", "danger")] d s
  ∧ show_likes d s user_id
    = mkOutcome (Redirect "/login") [("Access unauthorized.", "danger")] d s.
Proof.
  intros Hg. unfold show_following, users_followers, show_likes. by rewrite Hg.
Qed.

Lemma anonymous_reads_refused_witness :
  response (show_following (mkDB [alice; bob] [] [] []) anonymous 1) = Redirect "/".
Proof.
  destruct (anonymous_reads_refused (mkDB [alice; bob] [] [] []) anonymous 1 eq_refl)
    as (Hfollowing & _).
  by rewrite Hfollowing.
Defined.

(** ** Following and the home timeline *)

Lemma set_follows_same (d : DB) : set_follows d (follows d) = d.
Proof. by destruct d. Qed.

Lemma NoDup_delete_row_gone {A} `{EqDecision A} (r : A) (l : list A) :
  NoDup l → r ∉ delete_row r l.
Proof.
  intros Hnd. destruct (decide (r ∈ l)) as [Hin|Hout].
  - destruct (delete_row_split r l Hin) as (l1 & l2 & Hl & Hn1 & ->).
    rewrite Hl in Hnd. apply NoDup_app in Hnd as (_ & _ & Hnd2).
    apply NoDup_cons in Hnd2 as [Hn2 _].
    rewrite elem_of_app. intros [?|?]; done.
  - by rewrite delete_row_notin.
Qed.

(** X8: following and unfollowing undo each other.  When a logged-in user
    follows an existing user they do not follow yet, that user is in their
    [following] afterwards; unfollowing right after is answered with the
    same redirect to the following page, and the store and the session are
    again the ones before the follow. *)
Theorem follow_unfollow_round_trip
    (d : DB) (s : Session) (user followed : User.t) (target : Z) :
  add_user_to_g d s = Some user →
  User_query_get d target = Some followed →
  Follows.mk (User.id user) target ∉ follows d →
  let o1 := add_follow d s target in
  let o2 := stop_following (db_after o1) (session_after o1) target in
  response o1 = Redirect ("/users/" +:+ pretty (User.id user) +:+ "/following")
  ∧ followed ∈ following (db_after o1) user
  ∧ response o2 = response o1
  ∧ db_after o2 = d
  ∧ session_after o2 = s.
Proof.
  intros Hg Hq Hout o1 o2.
  pose proof (head_filter_Some _ _ _ Hq) as [Hin Hid]. simpl in Hid.
  set (edge := Follows.mk (User.id user) target) in *.
  assert (o1 = mkOutcome (Redirect ("/users/" +:+ pretty (User.id user) +:+ "/following"))
                 [] (set_follows d (follows d ++ [edge])) s) as Ho1.
  { subst o1. unfold add_follow. rewrite Hg, Hq, Hid. fold edge.
    by rewrite decide_False. }
  assert (o2 = mkOutcome (Redirect ("/users/" +:+ pretty (User.id user) +:+ "/following"))
                 [] d s) as Ho2.
  { subst o2. rewrite Ho1. unfold stop_following, following_remove. simpl.
    change (add_user_to_g (set_follows d (follows d ++ [edge])) s)
      with (add_user_to_g d s).
    change (User_query_get (set_follows d (follows d ++ [edge])) target)
      with (User_query_get d target).
    rewrite Hg.
    rewrite Hq, Hid. fold edge. simpl.
    rewrite decide_True by (apply elem_of_app; right; apply list_elem_of_here).
    rewrite delete_row_app_last by done. simpl.
    by destruct d. }
  rewrite Ho2, Ho1. simpl. split_and!; try done.
  apply following_elem. split; [done|]. simpl. rewrite Hid. fold edge.
  apply elem_of_app. right. apply list_elem_of_here.
Qed.

Lemma follow_unfollow_round_trip_witness :
  let d := mkDB [alice; bob] [Message.mk 1 "Hello" 10 1] [] [] in
  db_after (stop_following (db_after (add_follow d (as_user 2) 1)) (as_user 2) 1) = d.
Proof.
  intros d.
  destruct (follow_unfollow_round_trip d (as_user 2) bob alice 1 eq_refl eq_refl)
    as (_ & _ & _ & Hback & _); [apply not_elem_of_nil|exact Hback].
Defined.

(** X9: unfollowing takes the messages off the home timeline.  When a
    logged-in user unfollows a user they follow, in a follows table without
    repeated rows, the request is answered with the redirect to the
    following page, the edge is gone, and the home timeline of the user
    shows no message written by the unfollowed one. *)
Theorem unfollow_clears_timeline
    (d : DB) (s : Session) (user followed : User.t) (target : Z) :
  NoDup (follows d) →
  add_user_to_g d s = Some user →
  User_query_get d target = Some followed →
  Follows.mk (User.id user) target ∈ follows d →
  let o := stop_following d s target in
  response o = Redirect ("/users/" +:+ pretty (User.id user) +:+ "/following")
  ∧ (Follows.mk (User.id user) target ∉ follows (db_after o))
  ∧ ∀ m, m ∈ shown_messages (response (homepage (db_after o) (session_after o))) →
         Message.user_id m ≠ target.
Proof.
  intros Hnd Hg Hq Hin o.
  pose proof (head_filter_Some _ _ _ Hq) as [_ Hid]. simpl in Hid.
  set (edge := Follows.mk (User.id user) target) in *.
  assert (o = mkOutcome (Redirect ("/users/" +:+ pretty (User.id user) +:+ "/following"))
                [] (set_follows d (delete_row edge (follows d))) s) as Ho.
  { subst o. unfold stop_following, following_remove. rewrite Hg, Hq, Hid. fold edge.
    by rewrite decide_True. }
  rewrite Ho. simpl.
  pose proof (NoDup_delete_row_gone edge (follows d) Hnd) as Hgone.
  split_and!; [done|done|].
  intros m Hm Hauthor.
  rewrite (homepage_shown _ s user) in Hm by exact Hg.
  apply subseteq_take in Hm. rewrite order_by_timestamp_desc_Permutation in Hm.
  apply list_elem_of_filter in Hm as [Hfol _].
  apply list_elem_of_fmap in Hfol as (author & Hauth & Hfol).
  apply following_elem in Hfol as [_ Hedge]. simpl in Hedge.
  apply Hgone. by rewrite <- Hauth, Hauthor in Hedge.
Qed.

Lemma unfollow_clears_timeline_witness :
  let d := mkDB [alice; bob] [Message.mk 1 "Hello" 10 1] [Follows.mk 2 1] [] in
  Message.mk 1 "Hello" 10 1
    ∉ shown_messages (response (homepage (db_after (stop_following d (as_user 2) 1))
                                         (as_user 2))).
Proof.
  intros d Hm.
  assert (NoDup (follows d)) as Hnd by (apply NoDup_singleton).
  destruct (unfollow_clears_timeline d (as_user 2) bob alice 1 Hnd eq_refl eq_refl)
    as (_ & _ & Hclear); [apply list_elem_of_here|].
  exact (Hclear _ Hm eq_refl).
Defined.

(** ** The 100 most recent *)

Lemma limit_most_recent (rows : list Message.t) :
  most_recent_of rows (limit 100 (order_by_timestamp_desc rows)).
Proof.
  pose proof (order_by_timestamp_desc_sorted rows) as Hsorted.
  pose proof (order_by_timestamp_desc_Permutation rows) as Hperm.
  exists (drop 100 (order_by_timestamp_desc rows)). unfold limit. split_and!.
  - by rewrite take_drop.
  - intros a b Ha Hb.
    rewrite <- (take_drop 100 (order_by_timestamp_desc rows)) in Hsorted.
    by apply (StronglySorted_app_1_elem_of _ _ _ _ _ Hsorted).
  - by rewrite length_take, Hperm.
  - intros Hlen. apply drop_ge. by rewrite Hperm.
Qed.

(** X10: the home page shows the 100 most recent messages of the followed
    users.  For a logged-in viewer, the messages of followed users that
    the page leaves out are no newer than any message it shows; it shows
    [min 100 n] of the [n] such messages, so all of them when there are
    at most 100. *)
Theorem homepage_most_recent (d : DB) (s : Session) (viewer : User.t) :
  add_user_to_g d s = Some viewer →
  most_recent_of
    (filter (λ m, Message.user_id m ∈ User.id <$> following d viewer) (messages d))
    (shown_messages (response (homepage d s))).
Proof.
  intros Hg. rewrite (homepage_shown d s viewer Hg). apply limit_most_recent.
Qed.

Lemma homepage_most_recent_witness :
  most_recent_of [Message.mk 1 "Hello" 10 1; Message.mk 2 "World" 10 1]
                 (shown_messages (response (homepage db_tie (as_user 2)))).
Proof. exact (homepage_most_recent db_tie (as_user 2) bob eq_refl). Defined.

(** X11: the profile page of a user.  For an existing user, [users_show]
    shows rows of the messages table that this user wrote, newest first,
    and they are the 100 most recent of them; what it shows does not
    depend on who asks, and it writes nothing. *)
Theorem users_show_timeline (d : DB) (s : Session) (user_id : Z) (user : User.t) :
  User_query_get d user_id = Some user →
  let tl := shown_messages (response (users_show d s user_id)) in
  (∀ m, m ∈ tl → m ∈ messages d ∧ Message.user_id m = user_id)
  ∧ StronglySorted newer_or_same tl
  ∧ most_recent_of (filter (λ m, Message.user_id m = user_id) (messages d)) tl
  ∧ (∀ s', response (users_show d s' user_id) = response (users_show d s user_id))
  ∧ db_after (users_show d s user_id) = d
  ∧ session_after (users_show d s user_id) = s.
Proof.
  intros Hq tl. subst tl. rewrite (users_show_shown d s user_id user Hq).
  split_and!.
  - intros m Hm. apply subseteq_take in Hm.
    rewrite order_by_timestamp_desc_Permutation in Hm.
    apply list_elem_of_filter in Hm as [? ?]. done.
  - apply limit_sorted, order_by_timestamp_desc_sorted.
  - apply limit_most_recent.
  - intros s'. unfold users_show. by rewrite Hq.
  - unfold users_show. by rewrite Hq.
  - unfold users_show. by rewrite Hq.
Qed.

Lemma users_show_timeline_witness :
  shown_messages (response (users_show db_tie anonymous 1))
  = [Message.mk 1 "Hello" 10 1; Message.mk 2 "World" 10 1]
  ∧ StronglySorted newer_or_same (shown_messages (response (users_show db_tie anonymous 1))).
Proof.
  destruct (users_show_timeline db_tie anonymous 1 alice eq_refl) as (_ & Hsorted & _).
  split; [reflexivity|exact Hsorted].
Defined.

(** ** Posting *)

Lemma filter_all {A} (P : A → Prop) `{∀ x, Decision (P x)} (l : list A) :
  Forall P l → filter P l = l.
Proof.
  induction 1 as [|x l Hx Hl IH]; [done|]. by rewrite filter_cons_True, IH.
Qed.

Lemma filter_app_last_None {A} (P : A → Prop) `{∀ x, Decision (P x)} (l : list A) (x : A) :
  Forall (λ y, ¬ P y) l → P x → filter P (l ++ [x]) = [x].
Proof.
  intros Hl Hx. rewrite filter_app, (filter_cons_True P x []) by done.
  rewrite (proj1 (head_None (filter P l))); [done|].
  by apply head_filter_None.
Qed.

Lemma order_by_timestamp_desc_newest (m : Message.t) (l : list Message.t) :
  Forall (λ x, Message.timestamp x < Message.timestamp m) l →
  order_by_timestamp_desc (l ++ [m]) = m :: order_by_timestamp_desc l.
Proof.
  induction 1 as [|x l Hx Hl IH]; simpl; [done|].
  rewrite IH. simpl. by rewrite decide_True.
Qed.

Section Posting.
Context `{Collaborators}.

(** X12: a new message heads the timelines.  A valid post by a logged-in
    author appends one message row with the text of the form, the clock
    reading and the author as owner.  When the clock reading is later than
    every stored timestamp, that message is the first on the profile page
    of the author, and the first on the home page of every logged-in
    user that follows the author. *)
Theorem new_message_heads_timelines
    (now new_id : Z) (d : DB) (s : Session) (form : MessageForm) (author : User.t) :
  add_user_to_g d s = Some author →
  validate_MessageForm form = true →
  Forall (λ m, Message.timestamp m < now) (messages d) →
  let o := messages_add now new_id d s POST form in
  let msg := Message.mk new_id (msg_text form) now (User.id author) in
  o = mkOutcome (Redirect ("/users/" +:+ pretty (User.id author))) []
                (set_messages d (messages d ++ [msg])) s
  ∧ (∀ s', head (shown_messages (response (users_show (db_after o) s' (User.id author))))
           = Some msg)
  ∧ (∀ s' viewer,
       add_user_to_g d s' = Some viewer →
       Follows.mk (User.id viewer) (User.id author) ∈ follows d →
       head (shown_messages (response (homepage (db_after o) s'))) = Some msg).
Proof.
  intros Hg Hvalid Hnew o msg.
  assert (o = mkOutcome (Redirect ("/users/" +:+ pretty (User.id author))) []
                (set_messages d (messages d ++ [msg])) s) as Ho.
  { subst o. unfold messages_add. simpl. by rewrite Hg, Hvalid. }
  apply add_user_to_g_Some in Hg as [_ Hq].
  pose proof (head_filter_Some _ _ _ Hq) as [Hauthor _].
  assert (∀ P : Message.t → Prop, ∀ Hdec : (∀ x, Decision (P x)),
            P msg →
            head (limit 100 (order_by_timestamp_desc (filter P (messages d ++ [msg]))))
            = Some msg) as Hhead.
  { intros P Hdec HP. rewrite filter_app, (filter_cons_True P msg []) by done.
    rewrite order_by_timestamp_desc_newest; [done|].
    apply Forall_forall. intros x Hx. apply list_elem_of_filter in Hx as [_ Hx].
    rewrite Forall_forall in Hnew. by apply Hnew. }
  rewrite Ho. simpl. split_and!; [done| |].
  - intros s'. rewrite (users_show_shown _ s' _ author) by exact Hq.
    by apply Hhead.
  - intros s' viewer Hv Hedge.
    rewrite (homepage_shown _ s' viewer) by exact Hv.
    apply Hhead. simpl.
    apply (list_elem_of_fmap_2 User.id). by apply following_elem.
Qed.

(** X13: posting and deleting undo each other.  When the store gives the
    new message an identifier that no message has and no like row names,
    the author's delete of that message right after the post is answered
    with the same redirect to the author's page, and the store and the
    session are again the ones before the post. *)
Theorem post_then_delete_round_trip
    (now new_id : Z) (d : DB) (s : Session) (form : MessageForm) (author : User.t) :
  add_user_to_g d s = Some author →
  validate_MessageForm form = true →
  Forall (λ m, Message.id m ≠ new_id) (messages d) →
  Forall (λ l, Likes.message_id l ≠ new_id) (likes d) →
  let o1 := messages_add now new_id d s POST form in
  let o2 := messages_destroy (db_after o1) (session_after o1) new_id in
  Message_query_get (db_after o1) new_id
  = Some (Message.mk new_id (msg_text form) now (User.id author))
  ∧ response o2 = response o1
  ∧ db_after o2 = d
  ∧ session_after o2 = s.
Proof.
  intros Hg Hvalid Hfresh Hlikes o1 o2.
  set (msg := Message.mk new_id (msg_text form) now (User.id author)).
  assert (o1 = mkOutcome (Redirect ("/users/" +:+ pretty (User.id author))) []
                 (set_messages d (messages d ++ [msg])) s) as Ho1.
  { subst o1. unfold messages_add. simpl. by rewrite Hg, Hvalid. }
  assert (Message_query_get (set_messages d (messages d ++ [msg])) new_id = Some msg) as Hq.
  { unfold Message_query_get. simpl.
    rewrite (filter_app_last_None (λ m, Message.id m = new_id)); [done| |done].
    eapply Forall_impl; [exact Hfresh|]. by intros x Hx. }
  subst o2. rewrite Ho1. simpl. split; [exact Hq|].
  unfold messages_destroy.
  change (add_user_to_g (set_messages d (messages d ++ [msg])) s) with (add_user_to_g d s).
  rewrite Hg, Hq. simpl. split_and!; [done| |done].
  unfold delete_message. simpl.
  rewrite filter_app, (filter_all _ (messages d)), (filter_cons_False _ msg []),
    (filter_all _ (likes d)).
  - rewrite app_nil_r. by destruct d.
  - done.
  - simpl. by intros Hne.
  - done.
Qed.
End Posting.

Lemma new_message_heads_timelines_witness :
  let d := mkDB [alice; bob] [Message.mk 1 "Hello" 10 1] [Follows.mk 2 1] [] in
  let o := @messages_add demo 20 2 d (as_user 1) POST (mkMessageForm "World") in
  head (shown_messages (response (homepage (db_after o) (as_user 2))))
  = Some (Message.mk 2 "World" 20 1).
Proof.
  intros d o.
  destruct (@new_message_heads_timelines demo 20 2 d (as_user 1) (mkMessageForm "World") alice)
    as (_ & _ & Hhome).
  - reflexivity.
  - reflexivity.
  - repeat constructor.
  - apply (Hhome (as_user 2) bob eq_refl). apply list_elem_of_here.
Defined.

Lemma post_then_delete_round_trip_witness :
  let d := mkDB [alice; bob] [Message.mk 1 "Hello" 10 1] [] [Likes.mk 2 1] in
  let o1 := @messages_add demo 20 2 d (as_user 1) POST (mkMessageForm "World") in
  db_after (messages_destroy (db_after o1) (session_after o1) 2) = d.
Proof.
  intros d o1.
  destruct (@post_then_delete_round_trip demo 20 2 d (as_user 1) (mkMessageForm "World") alice)
    as (_ & _ & Hback & _).
  - reflexivity.
  - reflexivity.
  - repeat constructor. discriminate.
  - repeat constructor. discriminate.
  - exact Hback.
Defined.

(** ** Accounts *)

(** X14: a deleted account cannot act any more.  When a logged-in user
    deletes their account, the request is answered with the redirect to
    the signup page, no row of the users table has that identifier any
    more and the other users are kept; [g.user] is [None] for the session
    the answer leaves and for any session that still holds the
    identifier, the one the request came with included. *)
Theorem delete_user_invalidates_sessions (d : DB) (s : Session) (user : User.t) :
  add_user_to_g d s = Some user →
  let o := delete_user d s in
  response o = Redirect "/signup"
  ∧ Forall (λ v, User.id v ≠ User.id user) (users (db_after o))
  ∧ (∀ v, v ∈ users d → User.id v ≠ User.id user → v ∈ users (db_after o))
  ∧ add_user_to_g (db_after o) (session_after o) = None
  ∧ add_user_to_g (db_after o) s = None
  ∧ ∀ s', s' !! CURR_USER_KEY = Some (User.id user) → add_user_to_g (db_after o) s' = None.
Proof.
  intros Hg o. subst o. unfold delete_user. rewrite Hg. simpl.
  assert (User_query_get (delete_user_row d user) (User.id user) = None) as Hgone.
  { unfold User_query_get. simpl. rewrite list_filter_filter.
    apply (head_filter_None _). apply Forall_forall. intros v _ [Heq Hne]. done. }
  assert (∀ s', s' !! CURR_USER_KEY = Some (User.id user) →
                add_user_to_g (delete_user_row d user) s' = None) as Hstale.
  { intros s' Hs'. unfold add_user_to_g. by rewrite Hs'. }
  split_and!; [done| | |apply add_user_to_g_do_logout| |done].
  - apply Forall_forall. intros v Hv. by apply list_elem_of_filter in Hv as [? _].
  - intros v Hv Hne. by apply list_elem_of_filter.
  - apply Hstale. by apply add_user_to_g_Some in Hg as [? _].
Qed.

Lemma delete_user_invalidates_sessions_witness :
  let d := mkDB [alice; bob] [] [] [] in
  users (db_after (delete_user d (as_user 1))) = [bob]
  ∧ add_user_to_g (db_after (delete_user d (as_user 1))) (as_user 1) = None.
Proof.
  intros d.
  destruct (delete_user_invalidates_sessions d (as_user 1) alice eq_refl)
    as (_ & _ & _ & _ & Hold & _).
  split; [reflexivity|exact Hold].
Defined.

Lemma unique_key_eq {A B} (f : A → B) (l : list A) (x y : A) :
  NoDup (f <$> l) → x ∈ l → y ∈ l → f x = f y → x = y.
Proof.
  induction l as [|z l IH]; intros Hnd Hx Hy Heq; [by apply elem_of_nil in Hx|].
  rewrite fmap_cons in Hnd. apply NoDup_cons in Hnd as [Hz Hnd].
  apply elem_of_cons in Hx as [->|Hx]; apply elem_of_cons in Hy as [->|Hy].
  - done.
  - exfalso. apply Hz. rewrite Heq. by apply list_elem_of_fmap_2.
  - exfalso. apply Hz. rewrite <- Heq. by apply list_elem_of_fmap_2.
  - by apply IH.
Qed.

Section Accounts.
Context `{Collaborators}.

(** X15: what a profile edit leaves alone.  On a store without repeated
    user identifiers, [profile] never changes the identifier or the stored
    password hash of any user, never adds or removes a user row, and never
    touches messages, follows, likes or the session, whatever the method
    and the form; and when the password of the form does not verify
    against the hash of the logged-in user, the store is as it was. *)
Theorem profile_keeps_ids_and_hashes
    (d : DB) (s : Session) (meth : Method) (form : UserEditForm) :
  unique_user_ids d →
  let o := profile d s meth form in
  User.id <$> users (db_after o) = User.id <$> users d
  ∧ User.password <$> users (db_after o) = User.password <$> users d
  ∧ messages (db_after o) = messages d
  ∧ follows (db_after o) = follows d
  ∧ likes (db_after o) = likes d
  ∧ session_after o = s
  ∧ (∀ user, add_user_to_g d s = Some user →
       check_password_hash (User.password user) (edit_password form) = false →
       db_after o = d).
Proof.
  intros Hids o. subst o. unfold profile.
  destruct (add_user_to_g d s) as [user|] eqn:Hg; [|by split_and!].
  destruct (validate_on_submit meth (validate_UserEditForm form)); [|by split_and!].
  simpl. destruct (check_password_hash (User.password user) (edit_password form)) eqn:Hpw;
    [|by split_and!].
  unfold commit_user_update. destruct (decide _) as [?|_]; [by split_and!|]. simpl.
  apply add_user_to_g_Some in Hg as [_ Hq].
  pose proof (head_filter_Some _ _ _ Hq) as [Huser _].
  split_and!; try done.
  - rewrite <- list_fmap_compose. apply list_fmap_ext. intros i v Hv. simpl.
    by destruct (decide (User.id v = User.id user)).
  - rewrite <- list_fmap_compose. apply list_fmap_ext. intros i v Hv. simpl.
    destruct (decide (User.id v = User.id user)) as [Heq|]; [|done]. simpl.
    apply list_elem_of_lookup_2 in Hv.
    by rewrite (unique_key_eq User.id (users d) v user Hids Hv Huser Heq).
  - intros user' [= <-] Hno. congruence.
Qed.

(** X16: a profile edit to a taken username.  When a logged-in user
    submits a valid edit with their current password and a username that
    another user has, the commit is refused by the unique index; the view
    does not catch the [IntegrityError], unlike [signup], and nothing is
    written. *)
Theorem profile_username_taken_raises
    (d : DB) (s : Session) (form : UserEditForm) (user other : User.t) :
  add_user_to_g d s = Some user →
  validate_UserEditForm form = true →
  check_password_hash (User.password user) (edit_password form) = true →
  other ∈ users d →
  User.id other ≠ User.id user →
  User.username other = edit_username form →
  profile d s POST form = mkOutcome (Raised IntegrityError) [] d s.
Proof.
  intros Hg Hvalid Hpw Hother Hne Hname. unfold profile. rewrite Hg. simpl.
  rewrite Hvalid, Hpw. unfold commit_user_update. simpl.
  rewrite decide_True; [done|].
  apply Exists_exists. exists other. split; [done|]. simpl. auto.
Qed.
End Accounts.

Lemma profile_keeps_ids_and_hashes_witness :
  let o := @profile demo (mkDB [alice; bob] [] [] []) (as_user 1) POST
             (mkUserEditForm "alicia" "alicia@test.com" "" "" None None "password") in
  User.username <$> users (db_after o) = ["alicia"; "bob"]
  ∧ User.password <$> users (db_after o) = ["hash:password"; "hash:hunter22"].
Proof.
  intros o.
  assert (unique_user_ids (mkDB [alice; bob] [] [] [])) as Hids.
  { apply (bool_decide_unpack _). reflexivity. }
  destruct (@profile_keeps_ids_and_hashes demo (mkDB [alice; bob] [] [] []) (as_user 1) POST
              (mkUserEditForm "alicia" "alicia@test.com" "" "" None None "password") Hids)
    as (_ & Hpw & _).
  split; [reflexivity|exact Hpw].
Defined.

Lemma profile_username_taken_raises_witness :
  response (@profile demo (mkDB [alice; bob] [] [] []) (as_user 1) POST
              (mkUserEditForm "bob" "alice@test.com" "" "" None None "password"))
  = Raised IntegrityError.
Proof.
  rewrite (@profile_username_taken_raises demo (mkDB [alice; bob] [] [] []) (as_user 1)
             (mkUserEditForm "bob" "alice@test.com" "" "" None None "password") alice bob).
  - reflexivity.
  - reflexivity.
  - reflexivity.
  - reflexivity.
  - apply list_elem_of_further, list_elem_of_here.
  - discriminate.
  - reflexivity.
Defined.

(** ** Pairs stay unique *)

Lemma NoDup_delete_row {A} `{EqDecision A} (r : A) (l : list A) :
  NoDup l → NoDup (delete_row r l).
Proof.
  induction 1 as [|x l Hx Hnd IH]; simpl; [constructor|].
  destruct (decide (x = r)); [done|].
  constructor; [|done]. intros Hin. apply Hx. by apply delete_row_subseteq in Hin.
Qed.

Lemma NoDup_snoc_fresh {A} (l : list A) (x : A) : NoDup l → x ∉ l → NoDup (l ++ [x]).
Proof.
  intros Hnd Hx. apply NoDup_app. split_and!; [done| |apply NoDup_singleton].
  intros y Hy Hy'. apply list_elem_of_singleton in Hy'. by subst.
Qed.

Section Uniqueness.
Context `{Collaborators}.

Lemma dispatch_pairs_unique (r : Request) (d : DB) (s : Session) :
  NoDup (likes d) → NoDup (follows d) →
  NoDup (likes (db_after (dispatch r d s))) ∧ NoDup (follows (db_after (dispatch r d s))).
Proof.
  intros Hl Hf. destruct r; simpl.
  - unfold signup. destruct (validate_on_submit _ _); [|done].
    destruct (User_signup _ _ _ _ _); [done|].
    unfold commit_new_user. by destruct (decide _).
  - unfold login. destruct (validate_on_submit _ _); [|done].
    by destruct (User_authenticate _ _ _).
  - done.
  - unfold users_show. by destruct (User_query_get _ _).
  - unfold add_follow. destruct (add_user_to_g d s) as [user|]; [|done].
    destruct (User_query_get d follow_id) as [v|]; [|done]. simpl.
    destruct (decide _) as [?|Hout]; [done|]. simpl.
    split; [done|]. by apply NoDup_snoc_fresh.
  - unfold stop_following, following_remove.
    destruct (add_user_to_g d s) as [user|]; [|done].
    destruct (User_query_get d follow_id) as [v|]; [|done].
    destruct (decide _); [|done]. simpl. split; [done|]. by apply NoDup_delete_row.
  - unfold profile. destruct (add_user_to_g d s) as [user|]; [|done].
    destruct (validate_on_submit _ _); [|done].
    simpl. destruct (check_password_hash _ _); [|done].
    unfold commit_user_update. by destruct (decide _).
  - unfold delete_user. destruct (add_user_to_g d s) as [user|]; [|done].
    simpl. split; by apply NoDup_filter.
  - unfold messages_add. destruct (add_user_to_g d s) as [user|]; [|done].
    by destruct (validate_on_submit _ _).
  - done.
  - unfold messages_destroy. destruct (add_user_to_g d s) as [user|]; [|done].
    destruct (Message_query_get _ _); [|done]. simpl. split; [|done].
    by apply NoDup_filter.
  - unfold homepage. by destruct (add_user_to_g d s).
  - unfold add_like. destruct (add_user_to_g d s) as [user|]; [|done].
    destruct (Message_query_get _ _); [|done].
    destruct (Likes_query_first d _ message_id) eqn:Hq; simpl.
    + split; [|done]. by apply NoDup_delete_row.
    + split; [|done]. apply NoDup_snoc_fresh; [done|].
      by apply Likes_query_first_None.
  - unfold remove_like. destruct (add_user_to_g d s) as [user|]; [|done].
    destruct (Message_query_get _ _); [|done].
    destruct (Likes_query_first _ _ _); [|done]. simpl.
    split; [|done]. by apply NoDup_delete_row.
Qed.

(** X17: no run of requests repeats a pair.  Starting from a store whose
    likes table has no repeated (user, message) row and whose follows
    table has no repeated (follower, followed) row, the tables have none
    after any sequence of requests from any sessions: [add_like] inserts
    only after it found no row for the pair, and a repeated follow adds
    nothing. *)
Theorem pairs_stay_unique (rs : list (Session * Request)) (d : DB) :
  NoDup (likes d) →
  NoDup (follows d) →
  NoDup (likes (serve rs d)) ∧ NoDup (follows (serve rs d)).
Proof.
  revert d. induction rs as [|[s r] rs IH]; intros d Hl Hf; simpl; [done|].
  destruct (dispatch_pairs_unique r d s Hl Hf) as [Hl' Hf']. by apply IH.
Qed.
End Uniqueness.

Lemma pairs_stay_unique_witness :
  let d := mkDB [alice; bob] [Message.mk 1 "Hello" 10 1] [] [] in
  NoDup (likes (@serve demo [(as_user 2, ReqAddLike 1); (as_user 2, ReqAddFollow 1);
                             (as_user 2, ReqAddFollow 1); (as_user 1, ReqAddLike 1)] d)).
Proof.
  intros d.
  destruct (@pairs_stay_unique demo
              [(as_user 2, ReqAddLike 1); (as_user 2, ReqAddFollow 1);
               (as_user 2, ReqAddFollow 1); (as_user 1, ReqAddLike 1)] d)
    as [Hlikes _]; [constructor|constructor|exact Hlikes].
Defined.

(** ** Likes on the home page *)

Lemma homepage_liked_ids (d : DB) (s : Session) (user : User.t) :
  add_user_to_g d s = Some user →
  shown_liked_ids (response (homepage d s))
  = Likes.message_id <$> filter (λ l, Likes.user_id l = User.id user) (likes d).
Proof. intros Hg. unfold homepage. rewrite Hg. reflexivity. Qed.

(** X18: the home page marks what the viewer likes.  For a logged-in
    viewer, the identifiers the home page gets as [liked_message] are
    those of the messages the viewer has a like row for.  So after
    [add_like] reported a like of an existing message, its identifier is
    among them on the next home page, and after it reported an unlike, on
    a likes table without repeated rows, it is not. *)
Theorem homepage_marks_likes (d : DB) (s : Session) (viewer : User.t) (mid : Z) :
  add_user_to_g d s = Some viewer →
  NoDup (likes d) →
  (∀ i, i ∈ shown_liked_ids (response (homepage d s))
        ↔ Likes.mk (User.id viewer) i ∈ likes d)
  ∧ (let o := add_like d s mid in
     let liked := shown_liked_ids (response (homepage (db_after o) (session_after o))) in
     (reported_like_state o = Some Liked → mid ∈ liked)
     ∧ (reported_like_state o = Some Unliked → mid ∉ liked)).
Proof.
  intros Hg Hnd.
  assert (∀ d', add_user_to_g d' s = Some viewer →
            ∀ i, i ∈ shown_liked_ids (response (homepage d' s))
                 ↔ Likes.mk (User.id viewer) i ∈ likes d') as Hids.
  { intros d' Hg' i. rewrite (homepage_liked_ids d' s viewer Hg'), list_elem_of_fmap.
    split.
    - intros ([u m] & -> & Hin). apply list_elem_of_filter in Hin as [Hu Hin].
      simpl in *. by subst u.
    - intros Hin. exists (Likes.mk (User.id viewer) i). split; [done|].
      by apply list_elem_of_filter. }
  split; [by apply Hids|].
  simpl. rewrite add_like_session.
  assert (add_user_to_g (db_after (add_like d s mid)) s = Some viewer) as Hg'.
  { destruct (add_like_same_but_likes d s mid) as (Hu & _).
    by rewrite (add_user_to_g_users d _ s Hu). }
  rewrite (Hids _ Hg'). unfold add_like. rewrite Hg.
  destruct (Message_query_get d mid) as [message|]; [|by split].
  destruct (Likes_query_first d (User.id viewer) mid) as [like|] eqn:Hq.
  - apply Likes_query_first_Some in Hq as [-> _]. simpl. split; [done|].
    intros _. by apply NoDup_delete_row_gone.
  - simpl. split; [|done]. intros _. apply elem_of_app. right. apply list_elem_of_here.
Qed.

Lemma homepage_marks_likes_witness :
  let d := mkDB [alice; bob] [Message.mk 1 "Hello" 10 1] [Follows.mk 2 1] [] in
  1 ∈ shown_liked_ids (response (homepage (db_after (add_like d (as_user 2) 1)) (as_user 2))).
Proof.
  intros d.
  destruct (homepage_marks_likes d (as_user 2) bob 1 eq_refl (NoDup_nil_2)) as [_ [Hliked _]].
  exact (Hliked eq_refl).
Defined.

(** ** Caching headers *)

Lemma headers_set_same (key value : string) (h : Headers) :
  filter (λ kv, lower kv.1 = lower key) (headers_set key value h) = [(key, value)].
Proof.
  induction h as [|[k v] h IH]; simpl.
  - by rewrite filter_cons_True.
  - destruct (decide (lower k = lower key)) as [Heq|Hne].
    + rewrite filter_cons_True by done. f_equal.
      rewrite list_filter_filter. apply (proj1 (head_None _)).
      apply (head_filter_None _). apply Forall_forall. by intros kv _ [? ?].
    + by rewrite filter_cons_False.
Qed.

Lemma headers_set_other (P : string → Prop) `{∀ n, Decision (P n)}
    (key value : string) (h : Headers) :
  ¬ P (lower key) →
  filter (λ kv, P (lower kv.1)) (headers_set key value h)
  = filter (λ kv, P (lower kv.1)) h.
Proof.
  intros HP. induction h as [|[k v] h IH]; simpl.
  - by rewrite filter_cons_False.
  - destruct (decide (lower k = lower key)) as [Heq|Hne].
    + rewrite filter_cons_False by done.
      rewrite (filter_cons_False _ (k, v)) by (simpl; by rewrite Heq).
      rewrite list_filter_filter. apply list_filter_iff. intros kv. split; [tauto|].
      intros Hkv. split; [done|]. intros Heq'. apply HP. by rewrite <- Heq'.
    + rewrite !(filter_cons _ (k, v)), IH. done.
Qed.

Lemma headers_get_set_other (name key value : string) (h : Headers) :
  lower name ≠ lower key →
  headers_get name (headers_set key value h) = headers_get name h.
Proof.
  intros Hne. unfold headers_get. f_equal. f_equal.
  exact (headers_set_other (λ n, n = lower name) key value h (λ E, Hne (eq_sym E))).
Qed.

Lemma headers_get_set_same (key value : string) (h : Headers) :
  headers_get key (headers_set key value h) = Some value.
Proof. unfold headers_get. by rewrite headers_set_same. Qed.

(** X19: what [add_header] leaves on a response.  Whatever headers the
    response had, under whatever spelling of their names, afterwards it
    has exactly one Cache-Control header and its value is
    "public, max-age=0": the value "no-cache, no-store, must-revalidate"
    set first is replaced by the last assignment.  Pragma is "no-cache",
    Expires is "0", and the headers of every other name are kept, in
    order. *)
Theorem add_header_cache_control (h : Headers) :
  filter (λ kv, lower kv.1 = "cache-control") (add_header h)
  = [("Cache-Control", "public, max-age=0")]
  ∧ headers_get "Cache-Control" (add_header h) = Some "public, max-age=0"
  ∧ headers_get "Pragma" (add_header h) = Some "no-cache"
  ∧ headers_get "Expires" (add_header h) = Some "0"
  ∧ filter (λ kv, lower kv.1 ∉ ["cache-control"; "pragma"; "expires"]) (add_header h)
    = filter (λ kv, lower kv.1 ∉ ["cache-control"; "pragma"; "expires"]) h.
Proof.
  unfold add_header. split_and!.
  - apply (headers_set_same "Cache-Control").
  - apply headers_get_set_same.
  - rewrite headers_get_set_other by (by vm_compute).
    rewrite headers_get_set_other by (by vm_compute).
    apply headers_get_set_same.
  - rewrite headers_get_set_other by (by vm_compute).
    apply headers_get_set_same.
  - assert (∀ key value h',
              lower key ∈ ["cache-control"; "pragma"; "expires"] →
              filter (λ kv, lower kv.1 ∉ ["cache-control"; "pragma"; "expires"])
                     (headers_set key value h')
              = filter (λ kv, lower kv.1 ∉ ["cache-control"; "pragma"; "expires"]) h')
      as Hkept.
    { intros key value h' Hin.
      exact (headers_set_other (λ n, n ∉ ["cache-control"; "pragma"; "expires"])
               key value h' (λ Hout, Hout Hin)). }
    rewrite !Hkept; [done|..]; apply (bool_decide_unpack _); reflexivity.
Qed.
